(** * A Flask single-page-application server: model and properties

    The program is [app.py]: a Flask application whose catch-all view [serve]
    sends an existing file of [client/dist] and otherwise renders
    [index.html], together with the module-level start-up code.

    The view is translated line by line.  What it calls lives in Python's
    standard library, Werkzeug, Flask and Jinja2; those functions are
    modelled here after their sources and documentation, on POSIX, over an
    explicit file-system tree.  Two things are taken as parameters of the
    development because they are data or code outside of the program: the
    MIME database consulted by [mimetypes.guess_type], and the Jinja2 engine
    on templates that contain directives or bytes other than printable
    ASCII.  A request is modelled twice: [handle] is the view in a process
    that has loaded no template yet, a function of the files;
    [handle_in_process] is the view in a process with the templates it has
    loaded, which Jinja2 keeps between requests.  Requests are served one
    after the other.  Not modelled: symbolic
    links, permissions, request headers (conditional and range requests),
    response headers other than the content type, percent-encoding of URL
    paths, and the reloader process of debug mode. *)

From stdpp Require Import base strings list gmap.
From Stdlib Require Import Ascii String.

(** ** Python strings

    A [str] or [bytes] value is a [string]: a sequence of 8-bit characters. *)

Definition slash : ascii := "/"%char.
Definition LF : ascii := "010"%char.
Definition CR : ascii := "013"%char.
Definition NUL : ascii := "000"%char.

(** [s.split(sep)] for a one-character separator: never the empty list. *)
Fixpoint split (sep : ascii) (s : string) : list string :=
  match s with
  | EmptyString => [EmptyString]
  | String c s' =>
      if decide (c = sep) then EmptyString :: split sep s'
      else match split sep s' with
           | [] => [String c EmptyString]
           | w :: ws => String c w :: ws
           end
  end.

(** [sep.join(l)]. *)
Fixpoint join (sep : string) (l : list string) : string :=
  match l with
  | [] => EmptyString
  | [w] => w
  | w :: ws => w +:+ sep +:+ join sep ws
  end.

(** [s.startswith(pre)] and [s.endswith(suf)]. *)
Fixpoint startswith (s pre : string) {struct pre} : bool :=
  match pre with
  | EmptyString => true
  | String a pre' =>
      match s with
      | String b s' => bool_decide (a = b) && startswith s' pre'
      | EmptyString => false
      end
  end.

Fixpoint endswith_char (s : string) (c : ascii) : bool :=
  match s with
  | EmptyString => false
  | String a EmptyString => bool_decide (a = c)
  | String _ s' => endswith_char s' c
  end.

(** [c in s]. *)
Fixpoint contains_char (c : ascii) (s : string) : bool :=
  match s with
  | EmptyString => false
  | String a s' => bool_decide (a = c) || contains_char c s'
  end.

(** ** [posixpath] *)

(** [posixpath.join(a, b)]. *)
Definition posixpath_join (a b : string) : string :=
  if startswith b "/" then b
  else if bool_decide (a = "") || endswith_char a slash then a +:+ b
  else a +:+ "/" +:+ b.

(** [posixpath.isabs(s)]. *)
Definition isabs (s : string) : bool := startswith s "/".

(** [posixpath.basename(p)]: what follows the last slash. *)
Definition basename (p : string) : string :=
  default EmptyString (last (split slash p)).

(** One iteration of the loop of [posixpath.normpath] over the components;
    [new_comps] is the Python list, appended to and popped at its end. *)
Definition normpath_step (initial_slashes : nat) (new_comps : list string)
    (comp : string) : list string :=
  if decide (comp = "" ∨ comp = ".") then new_comps
  else if decide (comp ≠ ".."
                  ∨ (initial_slashes = 0 ∧ new_comps = [])
                  ∨ (new_comps ≠ [] ∧ last new_comps = Some ".."))
  then new_comps ++ [comp]
  else match new_comps with
       | [] => new_comps
       | _ => removelast new_comps
       end.

Definition initial_slashes (path : string) : nat :=
  if startswith path "/" then
    if startswith path "//" && negb (startswith path "///") then 2 else 1
  else 0.

Definition slashes (n : nat) : string :=
  match n with 0 => "" | 1 => "/" | _ => "//" end.

(** [posixpath.normpath(path)]. *)
Definition normpath (path : string) : string :=
  if decide (path = "") then "."
  else
    let n := initial_slashes path in
    let comps := foldl (normpath_step n) [] (split slash path) in
    let path' := slashes n +:+ join "/" comps in
    if decide (path' = "") then "." else path'.

(** ** Werkzeug: [safe_join]

    [werkzeug.security.safe_join(directory, pathname)] on POSIX, where there
    are no alternative separators: [None] when the normalised name is
    absolute or leaves the directory. *)
Definition safe_join (directory pathname : string) : option string :=
  let directory := if decide (directory = "") then "."%string else directory in
  let filename :=
    if decide (pathname ≠ "") then normpath pathname else pathname in
  if isabs filename
     || startswith filename "/"
     || bool_decide (filename = "..")
     || startswith filename "../"
  then None
  else Some (posixpath_join directory filename).

(** ** The file system

    A tree of regular files and directories.  A directory lists its entries
    by name; the first entry of a name is the one found. *)
#[warnings="-register-all"]
Inductive node : Type :=
| File (content : string)
| Dir (entries : list (string * node)).

Fixpoint lookup_entry (name : string) (entries : list (string * node))
  : option node :=
  match entries with
  | [] => None
  | (n, x) :: rest => if decide (n = name) then Some x else lookup_entry name rest
  end.

(** The node at a location, a list of names from the root downwards. *)
Fixpoint node_at (n : node) (loc : list string) : option node :=
  match loc with
  | [] => Some n
  | name :: rest =>
      match n with
      | Dir entries =>
          match lookup_entry name entries with
          | Some child => node_at child rest
          | None => None
          end
      | File _ => None
      end
  end.

(** One step of path-name resolution: the current location must be a
    directory (else ENOTDIR or ENOENT); an empty component or [.] stays,
    [..] moves to the parent (the root is its own parent), a name must be
    an entry. *)
Definition walk_step (root : node) (cur : option (list string))
    (comp : string) : option (list string) :=
  match cur with
  | None => None
  | Some loc =>
      match node_at root loc with
      | Some (Dir entries) =>
          if decide (comp = "" ∨ comp = ".") then Some loc
          else if decide (comp = "..") then Some (removelast loc)
          else match lookup_entry comp entries with
               | Some _ => Some (loc ++ [comp])
               | None => None
               end
      | _ => None
      end
  end.

(** The location a path names, if resolution succeeds.  A path with a NUL
    byte names nothing (the [os.path] tests answer [False] on the
    [ValueError]), nor does the empty path. *)
Definition resolve (root : node) (cwd : list string) (path : string)
  : option (list string) :=
  if decide (path = "") then None
  else if contains_char NUL path then None
  else
    let start := if isabs path then [] else cwd in
    foldl (walk_step root) (Some start) (split slash path).

Definition stat (root : node) (cwd : list string) (path : string)
  : option node :=
  match resolve root cwd path with
  | Some loc => node_at root loc
  | None => None
  end.

(** ** The process and its effects *)

Inductive event : Type :=
| EvStat (path : string)
| EvRead (path : string)
| EvGetenv (name : string)
| EvBind (host : string) (port : nat).

(** What the process can observe, and the log of what it did.
    [module_dir] is the directory of [app.py], which Flask takes as the
    application's [root_path]. *)
Record world : Type := World {
  root : node;
  cwd : list string;
  environ : gmap string string;
  ports_in_use : list nat;
  module_dir : string;
  trace : list event
}.

Definition log (e : event) (w : world) : world :=
  World (root w) (cwd w) (environ w) (ports_in_use w) (module_dir w)
        (trace w ++ [e]).

Inductive exn : Type :=
| NotFound
| TemplateNotFound (name : string)
| TemplateError
| MethodNotAllowed
| RequestRedirect
| OSError.

Inductive outcome (A : Type) : Type :=
| Return (a : A)
| Raise (e : exn).
Arguments Return {A} a.
Arguments Raise {A} e.

(** Computations of the process: state passing with exceptions. *)
Definition IO (A : Type) : Type := world → outcome A * world.

Definition ret {A} (a : A) : IO A := λ w, (Return a, w).
Definition raise {A} (e : exn) : IO A := λ w, (Raise e, w).
Definition bind {A B} (m : IO A) (k : A → IO B) : IO B :=
  λ w, match m w with
       | (Return a, w') => k a w'
       | (Raise e, w') => (Raise e, w')
       end.

Notation "x <- m ;; k" := (bind m (λ x, k))
  (at level 100, m at next level, right associativity).

(** [os.path.exists(path)], [os.path.isfile(path)]. *)
Definition os_path_exists (path : string) : IO bool :=
  λ w, (Return (bool_decide (is_Some (stat (root w) (cwd w) path))),
        log (EvStat path) w).

Definition is_file (n : option node) : bool :=
  match n with Some (File _) => true | _ => false end.

Definition os_path_isfile (path : string) : IO bool :=
  λ w, (Return (is_file (stat (root w) (cwd w) path)), log (EvStat path) w).

(** [open(path, 'rb').read()]. *)
Definition read_file (path : string) : IO string :=
  λ w, match stat (root w) (cwd w) path with
       | Some (File content) => (Return content, log (EvRead path) w)
       | _ => (Raise OSError, log (EvRead path) w)
       end.

(** [os.stat(path)], for what its callers need of it: that the entry is
    there.  [os.path.getmtime] is this call too. *)
Definition os_stat (path : string) : IO node :=
  λ w, match stat (root w) (cwd w) path with
       | Some n => (Return n, log (EvStat path) w)
       | None => (Raise OSError, log (EvStat path) w)
       end.

(** [os.environ.get(name)]. *)
Definition os_environ_get (name : string) : IO (option string) :=
  λ w, (Return (environ w !! name), log (EvGetenv name) w).

(** ** Jinja2 on a template without directives

    The lexer splits the source at every line ending ([\r\n], [\r] or [\n]),
    drops one empty last line and joins the lines with [\n]; what is left
    is data, rendered as it is.  The dropped line is the option
    [keep_trailing_newline] of the Jinja2 environment: its default is
    [False], "which causes a single newline, if present, to be stripped
    from the end of the template", and Flask leaves it so. *)
Fixpoint newline_split (s : string) : list string :=
  match s with
  | EmptyString => [EmptyString]
  | String c s' =>
      if decide (c = CR) then
        match s' with
        | String c' s'' =>
            if decide (c' = LF) then EmptyString :: newline_split s''
            else EmptyString :: newline_split s'
        | EmptyString => EmptyString :: newline_split s'
        end
      else if decide (c = LF) then EmptyString :: newline_split s'
      else match newline_split s' with
           | [] => [String c EmptyString]
           | w :: ws => String c w :: ws
           end
  end.

Definition drop_empty_last_line (lines : list string) : list string :=
  match last lines with
  | Some EmptyString => removelast lines
  | _ => lines
  end.

Definition render_plain (source : string) : string :=
  join (String LF EmptyString) (drop_empty_last_line (newline_split source)).

(** A template is plain when it is printable ASCII text (with tabs and line
    endings) and no [{{], [{%] or [{#] occurs in it: then the lexer finds
    data only. *)
Fixpoint has_directive (s : string) : bool :=
  match s with
  | EmptyString => false
  | String c s' =>
      (bool_decide (c = "{"%char)
       && match s' with
          | String d _ =>
              bool_decide (d = "{"%char) || bool_decide (d = "%"%char)
              || bool_decide (d = "#"%char)
          | EmptyString => false
          end)
      || has_directive s'
  end.

Definition is_text_char (c : ascii) : bool :=
  let n := nat_of_ascii c in
  (32 <=? n) && (n <? 127) || (n =? 9) || (n =? 10) || (n =? 13).

Fixpoint is_text (s : string) : bool :=
  match s with
  | EmptyString => true
  | String c s' => is_text_char c && is_text s'
  end.

Definition is_plain (source : string) : bool :=
  is_text source && negb (has_directive source).

(** ** Responses *)

Inductive response : Type :=
| Response (status : nat) (mimetype : string) (body : string)
| ErrorPage (status : nat).

Definition status_of (r : response) : nat :=
  match r with Response s _ _ => s | ErrorPage s => s end.

(** ** The application object *)

Record Flask : Type := {
  root_path : string;
  static_folder_arg : string;
  template_folder : string;
  secret_key : option string
}.

(** The property [app.static_folder]: the folder joined to the root path. *)
Definition static_folder (app : Flask) : string :=
  posixpath_join (root_path app) (static_folder_arg app).

(** ** Routes and methods *)

Inductive http_method : Type :=
| GET | HEAD | OPTIONS | POST | PUT | DELETE | PATCH | TRACE | CONNECT.

#[global] Instance http_method_eq_dec : EqDecision http_method.
Proof. solve_decision. Defined.

Inductive endpoint : Type := StaticEndpoint | ServeEndpoint.

(** A rule is a literal prefix, optionally followed by one [<path:...>]
    argument; a rule without argument may carry a default for it. *)
Record rule : Type := Rule {
  rule_literal : string;
  rule_has_path : bool;
  rule_defaults : option string;
  rule_methods : list http_method;
  rule_endpoint : endpoint
}.

(** [add_url_rule] without [methods=]: GET, to which Werkzeug adds HEAD and
    Flask the automatic OPTIONS. *)
Definition add_url_rule (literal : string) (has_path : bool)
    (defaults : option string) (methods : option (list http_method))
    (ep : endpoint) : rule :=
  let methods := default [GET] methods in
  let methods :=
    if bool_decide (GET ∈ methods) && negb (bool_decide (HEAD ∈ methods))
    then methods ++ [HEAD] else methods in
  let methods :=
    if bool_decide (OPTIONS ∈ methods) then methods else methods ++ [OPTIONS] in
  Rule literal has_path defaults methods ep.

Fixpoint rstrip_slash (s : string) : string :=
  match s with
  | EmptyString => EmptyString
  | String c s' =>
      match rstrip_slash s' with
      | EmptyString => if decide (c = slash) then EmptyString else String c EmptyString
      | r => String c r
      end
  end.

(** [app.static_url_path] when none is given: the last component of the
    static folder. *)
Definition static_url_path (app : Flask) : string :=
  rstrip_slash ("/" +:+ basename (static_folder app)).

(** The rules of the URL map, most specific first: the static route that
    the constructor registers for an application with a static folder, and
    the two routes of [serve], lines 7 and 8. *)
Definition url_map (app : Flask) : list rule :=
  [ add_url_rule (static_url_path app +:+ "/") true None None StaticEndpoint;
    add_url_rule "/" false (Some ""%string) None ServeEndpoint;
    add_url_rule "/" true None None ServeEndpoint ].

Fixpoint strip_prefix (pre s : string) {struct pre} : option string :=
  match pre with
  | EmptyString => Some s
  | String a pre' =>
      match s with
      | String b s' => if decide (a = b) then strip_prefix pre' s' else None
      | EmptyString => None
      end
  end.

(** The value a rule binds on a URL path.  The [path] converter takes a
    non-empty rest that does not begin with a slash. *)
Definition match_rule (r : rule) (url : string) : option string :=
  if rule_has_path r then
    match strip_prefix (rule_literal r) url with
    | Some (String c rest) =>
        if decide (c = slash) then None else Some (String c rest)
    | _ => None
    end
  else if decide (url = rule_literal r) then Some (default ""%string (rule_defaults r))
  else None.

(** [str.lstrip('/')]. *)
Fixpoint lstrip_slash (s : string) : string :=
  match s with
  | EmptyString => EmptyString
  | String c s' => if decide (c = slash) then lstrip_slash s' else s
  end.

(** The response to HEAD: that to GET without its body. *)
Definition without_body (r : response) : response :=
  match r with
  | Response s mt _ => Response s mt ""
  | ErrorPage s => ErrorPage s
  end.

(** ** What the program takes from its installation

    The MIME database: [mimetypes.guess_type] as a function of the file
    name; and Jinja2 on a template that is not plain: the text it renders,
    or [None] when it raises a template error.  The engine is taken on the
    source alone: a template that reads the request ([request], [session],
    [g]) is not covered. *)
Class Runtime : Type := {
  guess_type : string → option string;
  jinja_engine : string → option string
}.

Section Server.

Context {rt : Runtime}.

(** ** Jinja2 and [render_template] *)

Definition render (source : string) : outcome string :=
  if is_plain source then Return (render_plain source)
  else match jinja_engine source with
       | Some body => Return body
       | None => Raise TemplateError
       end.

(** [jinja2.loaders.split_template_path]. *)
Definition split_template_path (template : string) : option (list string) :=
  foldl (λ acc piece,
           match acc with
           | None => None
           | Some pieces =>
               if decide (piece = "..") then None
               else if decide (piece ≠ "" ∧ piece ≠ ".") then Some (pieces ++ [piece])
               else Some pieces
           end)
        (Some []) (split slash template).

(** [FileSystemLoader.get_source], with the application's template folder
    as the only search path: the file test, the read, and the modification
    time that the loader takes for the template's up-to-date test. *)
Definition get_source (app : Flask) (template : string) : IO string :=
  match split_template_path template with
  | None => raise (TemplateNotFound template)
  | Some pieces =>
      let searchpath := posixpath_join (root_path app) (template_folder app) in
      let filename := foldl posixpath_join searchpath pieces in
      found <- os_path_isfile filename ;;
      if found then
        contents <- read_file filename ;;
        _ <- os_stat filename ;;
        ret contents
      else raise (TemplateNotFound template)
  end.

Definition lift {A} (o : outcome A) : IO A := λ w, (o, w).

(** [flask.render_template(name)], with no context variables, in a process
    that has not loaded the template before: the source comes from the
    file.  [render_cached_template] below is the call in any process. *)
Definition render_template (app : Flask) (name : string) : IO response :=
  source <- get_source app name ;;
  body <- lift (render source) ;;
  ret (Response 200 "text/html" body).

(** ** Werkzeug: sending files *)

(** [send_file(path)]: the bytes of the file, typed after its name.  The
    file is looked at ([os.stat], for size and modification time) and then
    opened. *)
Definition send_file (path : string) : IO response :=
  _ <- os_stat path ;;
  content <- read_file path ;;
  ret (Response 200
         (default "application/octet-stream"%string (guess_type (basename path)))
         content).

(** [flask.send_from_directory(directory, path)]. *)
Definition send_from_directory (app : Flask) (directory path : string)
  : IO response :=
  match safe_join directory path with
  | None => raise NotFound
  | Some path_str =>
      let path_str := posixpath_join (root_path app) path_str in
      found <- os_path_isfile path_str ;;
      if found then send_file path_str else raise NotFound
  end.

(** ** The view *)

Definition serve (app : Flask) (path : string) : IO response :=
  found <- (if decide (path ≠ "")
            then os_path_exists (static_folder app +:+ "/" +:+ path)
            else ret false) ;;
  if found then send_from_directory app (static_folder app) path
  else render_template app "index.html".

(** Flask turns an exception of a view into a response: an HTTP exception
    into its own page, anything else into a 500. *)
Definition handle_exception (e : exn) : response :=
  match e with
  | NotFound => ErrorPage 404
  | MethodNotAllowed => ErrorPage 405
  | RequestRedirect => ErrorPage 308
  | _ => ErrorPage 500
  end.

Definition finalize (m : IO response) (w : world) : response * world :=
  match m w with
  | (Return r, w') => (r, w')
  | (Raise e, w') => (handle_exception e, w')
  end.

(** The request handler: the view run on a path, in a process that has
    loaded no template yet. *)
Definition handle (app : Flask) (path : string) (w : world)
  : response * world :=
  finalize (serve app path) w.

(** ** Routing *)

Definition run_view (app : Flask) (ep : endpoint) (arg : string)
  : IO response :=
  match ep with
  | StaticEndpoint => send_from_directory app (static_folder app) arg
  | ServeEndpoint => serve app arg
  end.

(** Werkzeug matches the path of the request with all its leading slashes
    replaced by one.  The rules are matched in turn: no rule on the path is
    [NotFound], rules on the path but none for the method is
    [MethodNotAllowed]; OPTIONS is answered by Flask itself, and HEAD as GET
    without the body.  An empty path is sent to [/] with a redirect when a
    rule for [/] takes the method, and is [NotFound] otherwise. *)
Definition dispatch_request (app : Flask) (m : http_method) (url : string)
  : IO response :=
  if decide (url = "") then
    if existsb (λ r, bool_decide (is_Some (match_rule r "/"))
                     && bool_decide (m ∈ rule_methods r)) (url_map app)
    then raise RequestRedirect
    else raise NotFound
  else
    let path_part := "/" +:+ lstrip_slash url in
    let hits := omap (λ r, pair r <$> match_rule r path_part) (url_map app) in
    match hits with
    | [] => raise NotFound
    | _ =>
        match List.find (λ h, bool_decide (m ∈ rule_methods h.1)) hits with
        | None => raise MethodNotAllowed
        | Some (r, arg) =>
            if decide (m = OPTIONS) then ret (Response 200 "text/html" "")
            else
              resp <- run_view app (rule_endpoint r) arg ;;
              ret (if decide (m = HEAD) then without_body resp else resp)
        end
    end.

Definition full_dispatch_request (app : Flask) (m : http_method)
    (url : string) (w : world) : response * world :=
  finalize (dispatch_request app m url) w.

End Server.

(** ** Start-up: the module-level code of [app.py] *)

(** Lines 4 and 5: the application object and its secret. *)
Definition make_app (root_path : string) (secret : option string) : Flask :=
  {| root_path := root_path;
     static_folder_arg := "client/dist";
     template_folder := "client/dist";
     secret_key := secret |}.

Definition create_app : IO Flask :=
  λ w, (secret <- os_environ_get "SESSION_SECRET" ;;
        ret (make_app (module_dir w) secret)) w.

Inductive process : Type :=
| Listening (app : Flask) (host : string) (port : nat)
| Exited (code : nat).

(** [app.run(host, port)]: the listener is bound, or the bind fails. *)
Definition app_run (app : Flask) (host : string) (port : nat) : IO process :=
  λ w, if bool_decide (port ∈ ports_in_use w) then (Raise OSError, w)
       else (Return (Listening app host port), log (EvBind host port) w).

(** The script: an exception that nothing catches ends the process with
    exit status 1. *)
Definition main (w : world) : process * world :=
  match (app <- create_app ;; app_run app "0.0.0.0" 5000) w with
  | (Return p, w') => (p, w')
  | (Raise _, w') => (Exited 1, w')
  end.

(** ** Vocabulary of the statements *)

(** The file [render_template] loads for [index.html]. *)
Definition index_path (app : Flask) : string :=
  posixpath_join (posixpath_join (root_path app) (template_folder app))
                 "index.html".

(** The stack [normpath] ends with on a relative path, and what its
    entries always are. *)
Definition norm (p : string) : list string :=
  foldl (normpath_step 0) [] (split slash p).

Definition comp_ok (c : string) : Prop :=
  c ≠ ""%string ∧ c ≠ "."%string ∧ contains_char slash c = false.

(** A name as a directory lists it: not empty, not [.] or [..], no slash. *)
Definition plain_name (x : string) : Prop :=
  x ≠ ""%string ∧ x ≠ "."%string ∧ x ≠ ".."%string
  ∧ contains_char slash x = false.

(** A relative path read component by component never climbs above the
    directory it starts in; [depth] counts the names below it so far. *)
Fixpoint stays_inside (depth : nat) (comps : list string) : bool :=
  match comps with
  | [] => true
  | c :: cs =>
      if decide (c = "" ∨ c = ".") then stays_inside depth cs
      else if decide (c = "..") then
        match depth with
        | 0 => false
        | S d => stays_inside d cs
        end
      else stays_inside (S depth) cs
  end.

Definition inside_root (path : string) : bool :=
  negb (isabs path) && stays_inside 0 (split slash path).

(** Two worlds with the same files: only the rest may differ. *)
Definition same_files (w w' : world) : Prop :=
  root w = root w' ∧ cwd w = cwd w'.


(** ** The serving process

    Between two requests a process keeps one thing of what it has read: the
    templates that Jinja2 has loaded.  [handle] above is a request in a
    process that has not loaded [index.html] yet; what follows takes a
    process through its requests. *)

(** Jinja2 on the syntax of a template that is not plain: whether the
    template compiles.  One that does not is refused when it is loaded. *)
Class Compiler : Type := { jinja_compiles : string → bool }.

(** A loaded template: its source, and the file and the modification time
    that its up-to-date test compares. *)
Record loaded_template : Type := Loaded {
  loaded_source : string;
  loaded_filename : string;
  loaded_mtime : nat
}.

(** The process: the machine it runs on, the modification times of the
    files, by location, and the Jinja2 environment of the application:
    [auto_reload], which Flask sets to [app.debug], and the cache of
    templates, by name. *)
Record server : Type := Server {
  machine : world;
  mtimes : list string → nat;
  auto_reload : bool;
  template_cache : gmap string loaded_template
}.

Definition Proc (A : Type) : Type := server → outcome A * server.

Definition proc_ret {A} (a : A) : Proc A := λ s, (Return a, s).
Definition proc_raise {A} (e : exn) : Proc A := λ s, (Raise e, s).
Definition proc_bind {A B} (m : Proc A) (k : A → Proc B) : Proc B :=
  λ s, match m s with
       | (Return a, s') => k a s'
       | (Raise e, s') => (Raise e, s')
       end.

Notation "x <~ m ;; k" := (proc_bind m (λ x, k))
  (at level 100, m at next level, right associativity).

(** A computation on the files, run in the process. *)
Definition in_machine {A} (m : IO A) : Proc A :=
  λ s, let '(o, w) := m (machine s) in
       (o, Server w (mtimes s) (auto_reload s) (template_cache s)).

(** The modification time of the file at a path. *)
Definition mtime_of (s : server) (path : string) : option nat :=
  mtimes s <$> resolve (root (machine s)) (cwd (machine s)) path.

(** [os.path.getmtime(path)]. *)
Definition os_path_getmtime (path : string) : Proc nat :=
  λ s, let s' := Server (log (EvStat path) (machine s)) (mtimes s)
                   (auto_reload s) (template_cache s) in
       match mtime_of s path with
       | Some t => (Return t, s')
       | None => (Raise OSError, s')
       end.

(** [Template.is_up_to_date]: the test that [get_source] hands over, true
    when the file still has the modification time it was loaded with. *)
Definition is_up_to_date (t : loaded_template) : Proc bool :=
  λ s, match os_path_getmtime (loaded_filename t) s with
       | (Return now, s') => (Return (bool_decide (now = loaded_mtime t)), s')
       | (Raise _, s') => (Return false, s')
       end.

Section Process.

Context {rt : Runtime} {jc : Compiler}.

(** The file that [get_source] finds for a template. *)
Definition template_filename (app : Flask) (template : string) : string :=
  foldl posixpath_join (posixpath_join (root_path app) (template_folder app))
        (default [] (split_template_path template)).

Definition compiles (source : string) : bool :=
  is_plain source || jinja_compiles source.

(** [BaseLoader.load]: the source is read and compiled; the template keeps
    the modification time that [get_source] took. *)
Definition load (app : Flask) (name : string) : Proc loaded_template :=
  source <~ in_machine (get_source app name) ;;
  λ s, if compiles source
       then (Return (Loaded source (template_filename app name)
                       (default 0 (mtime_of s (template_filename app name)))),
             s)
       else (Raise TemplateError, s).

(** The template is loaded, and cached once it is. *)
Definition load_and_cache (app : Flask) (name : string)
  : Proc loaded_template :=
  t <~ load app name ;;
  λ s, (Return t,
        Server (machine s) (mtimes s) (auto_reload s)
          (<[name := t]> (template_cache s))).

(** [Environment.get_template]: the cached template answers when there is
    one and [auto_reload] is off or the template is up to date; otherwise
    the template is loaded. *)
Definition get_template (app : Flask) (name : string) : Proc loaded_template :=
  λ s, match template_cache s !! name with
       | Some t =>
           if negb (auto_reload s) then (Return t, s)
           else (fresh <~ is_up_to_date t ;;
                 if fresh then proc_ret t else load_and_cache app name) s
       | None => load_and_cache app name s
       end.

(** [flask.render_template(name)] in the process. *)
Definition render_cached_template (app : Flask) (name : string)
  : Proc response :=
  t <~ get_template app name ;;
  body <~ in_machine (lift (render (loaded_source t))) ;;
  proc_ret (Response 200 "text/html" body).

(** The view, lines 9 to 12, in the process. *)
Definition serve_in_process (app : Flask) (path : string) : Proc response :=
  found <~ in_machine (if decide (path ≠ "")
                       then os_path_exists (static_folder app +:+ "/" +:+ path)
                       else ret false) ;;
  if found then in_machine (send_from_directory app (static_folder app) path)
  else render_cached_template app "index.html".

Definition handle_in_process (app : Flask) (path : string) (s : server)
  : response * server :=
  match serve_in_process app path s with
  | (Return r, s') => (r, s')
  | (Raise e, s') => (handle_exception e, s')
  end.

(** The process after a list of requests, one after the other. *)
Definition run_requests (app : Flask) (paths : list string) (s : server)
  : server :=
  foldl (λ s path, (handle_in_process app path s).2) s paths.

End Process.

(** A process that has served nothing yet. *)
Definition boot (w : world) (times : list string → nat) (debug : bool)
  : server :=
  Server w times debug ∅.

(** Somebody else changes the files: a build, a deployment, a clean-up. *)
Definition with_files (r : node) (times : list string → nat) (s : server)
  : server :=
  Server (World r (cwd (machine s)) (environ (machine s))
            (ports_in_use (machine s)) (module_dir (machine s))
            (trace (machine s)))
         times (auto_reload s) (template_cache s).

(** Two states of a process on the same files: contents, modification
    times and the reload switch agree; the cache and the log may differ. *)
Definition same_site (s s' : server) : Prop :=
  root (machine s) = root (machine s')
  ∧ cwd (machine s) = cwd (machine s')
  ∧ mtimes s = mtimes s'
  ∧ auto_reload s = auto_reload s'.

Section ProcessVocabulary.

Context {rt : Runtime} {jc : Compiler}.

(** What the files give for [index.html], loaded afresh. *)
Definition index_loaded (app : Flask) (s : server) : outcome loaded_template :=
  match stat (root (machine s)) (cwd (machine s)) (index_path app) with
  | Some (File source) =>
      if compiles source
      then Return (Loaded source (index_path app)
                     (default 0 (mtime_of s (index_path app))))
      else Raise TemplateError
  | _ => Raise (TemplateNotFound "index.html")
  end.

(** Whether a cached template answers without a look at its source. *)
Definition cache_answers (s : server) (t : loaded_template) : bool :=
  negb (auto_reload s)
  || bool_decide (mtime_of s (loaded_filename t) = Some (loaded_mtime t)).

(** The template a request for [index.html] gets, and the cache it
    leaves. *)
Definition index_template (app : Flask) (s : server)
  : outcome loaded_template :=
  match template_cache s !! "index.html"%string with
  | Some t => if cache_answers s t then Return t else index_loaded app s
  | None => index_loaded app s
  end.

Definition cache_loaded (app : Flask) (s : server)
  : gmap string loaded_template :=
  match index_loaded app s with
  | Return t => <["index.html"%string := t]> (template_cache s)
  | Raise _ => template_cache s
  end.

Definition cache_after (app : Flask) (s : server)
  : gmap string loaded_template :=
  match template_cache s !! "index.html"%string with
  | Some t => if cache_answers s t then template_cache s else cache_loaded app s
  | None => cache_loaded app s
  end.

(** The response made of a template. *)
Definition render_loaded (t : outcome loaded_template) : response :=
  match t with
  | Return t =>
      match render (loaded_source t) with
      | Return body => Response 200 "text/html" body
      | Raise e => handle_exception e
      end
  | Raise e => handle_exception e
  end.

End ProcessVocabulary.

(** ** A deployment to compute with *)

Definition newline : string := String LF EmptyString.

Definition index_html : string := "<html></html>" +:+ newline.

Definition example_root : node :=
  Dir [("etc"%string, Dir [("passwd"%string, File "root:x:0:0")]);
       ("srv"%string,
        Dir [("app"%string,
              Dir [("app.py"%string, File "import os");
                   ("client"%string,
                    Dir [("dist"%string,
                          Dir [("index.html"%string, File index_html);
                               ("assets"%string,
                                Dir [("app.js"%string,
                                      File "console.log(1)")])])])])])].

Definition example_world : world :=
  World example_root ["srv"; "app"]%string ∅ [] "/srv/app" [].

(** The same machine before the front end was built: no [client/dist]. *)
Definition unbuilt_root : node :=
  Dir [("srv"%string,
        Dir [("app"%string, Dir [("app.py"%string, File "import os")])])].

Definition unbuilt_world : world :=
  World unbuilt_root ["srv"; "app"]%string ∅ [] "/srv/app" [].

Definition example_app : Flask := make_app "/srv/app" None.

Definition example_guess_type (name : string) : option string :=
  if decide (name = "app.js") then Some "text/javascript"%string
  else if decide (name = "index.html") then Some "text/html"%string
  else None.

(** An engine that rejects every template handed to it; the templates of
    the examples are plain and never reach it. *)
Definition example_engine (source : string) : option string := None.

Definition example_runtime : Runtime :=
  {| guess_type := example_guess_type; jinja_engine := example_engine |}.

Definition example_handle (path : string) : response :=
  (handle (rt := example_runtime) example_app path example_world).1.

(** The example deployment with an [index.html] that does not end with a
    newline. *)
Definition tidy_root : node :=
  Dir [("srv"%string,
        Dir [("app"%string,
              Dir [("app.py"%string, File "import os");
                   ("client"%string,
                    Dir [("dist"%string,
                          Dir [("index.html"%string, File "<html></html>")])])])])].

Definition tidy_world : world :=
  World tidy_root ["srv"; "app"]%string ∅ [] "/srv/app" [].

(** A process on the example deployment. *)
Definition example_compiler : Compiler := {| jinja_compiles := λ _, false |}.

Definition example_request (path : string) (s : server) : response * server :=
  handle_in_process (rt := example_runtime) (jc := example_compiler)
    example_app path s.




(** The example deployment with another [index.html], and a process with
    debug on that has served a request before the change. *)
Definition restyled_root : node :=
  Dir [("srv"%string,
        Dir [("app"%string,
              Dir [("app.py"%string, File "import os");
                   ("client"%string,
                    Dir [("dist"%string,
                          Dir [("index.html"%string,
                                File "<html>new</html>")])])])])].

Definition warm_debug_process : server :=
  (example_request "dashboard" (boot tidy_world (λ _, 1) true)).2.

(** * Properties *)

#[local] Arguments String.append : simpl nomatch.
#[local] Arguments walk_step : simpl never.
#[local] Arguments normpath_step : simpl never.

(** ** Strings *)

Lemma split_nonempty sep s : split sep s ≠ [].
Proof.
  destruct s as [|c s]; simpl; [done|].
  destruct (decide (c = sep)); [done|].
  destruct (split sep s); done.
Qed.


Lemma split_app_slash a b :
  split slash (a +:+ "/" +:+ b) = split slash a ++ split slash b.
Proof.
  induction a as [|c a IH]; simpl.
  - destruct (decide ("/"%char = slash)) as [_|n]; [done|]. by destruct n.
  - simpl in IH. rewrite IH.
    destruct (decide (c = slash)); [done|].
    pose proof (split_nonempty slash a) as Hne.
    destruct (split slash a); [done|]. done.
Qed.

Lemma split_no_sep sep s :
  Forall (λ c, contains_char sep c = false) (split sep s).
Proof.
  induction s as [|c s IH]; simpl.
  - by constructor.
  - destruct (decide (c = sep)) as [->|Hne].
    + by constructor.
    + destruct (split sep s) as [|w ws]; simpl.
      * constructor; [|done]. simpl. rewrite bool_decide_eq_false_2; done.
      * inversion IH; subst. constructor; [|done].
        simpl. rewrite bool_decide_eq_false_2; done.
Qed.

Lemma split_id sep w : contains_char sep w = false → split sep w = [w].
Proof.
  induction w as [|c w IH]; simpl; [done|].
  intros H. apply orb_false_iff in H as [H1 H2].
  apply bool_decide_eq_false in H1.
  destruct (decide (c = sep)); [done|]. by rewrite IH.
Qed.

Lemma split_join names :
  names ≠ [] → Forall (λ c, contains_char slash c = false) names →
  split slash (join "/" names) = names.
Proof.
  induction names as [|w ws IH]; [done|]. intros _ H.
  inversion H as [|? ? Hw Hws]; subst.
  destruct ws as [|w' ws].
  - simpl. by apply split_id.
  - change (join "/" (w :: w' :: ws)) with (w +:+ "/" +:+ join "/" (w' :: ws)).
    rewrite split_app_slash, IH; [|done|done]. by rewrite split_id.
Qed.

Lemma contains_char_app c a b :
  contains_char c (a +:+ b) = contains_char c a || contains_char c b.
Proof.
  induction a as [|x a IH]; simpl; [done|]. by rewrite IH, orb_assoc.
Qed.

Lemma contains_char_split c s :
  c ≠ slash →
  contains_char c s = existsb (contains_char c) (split slash s).
Proof.
  intros Hc. induction s as [|x s IH]; simpl; [done|].
  destruct (decide (x = slash)) as [->|Hx].
  - simpl. rewrite bool_decide_eq_false_2; [|done]. by simpl.
  - pose proof (split_nonempty slash s) as Hne.
    destruct (split slash s) as [|w ws]; [done|].
    simpl in *. rewrite IH. by rewrite orb_assoc.
Qed.

Lemma contains_char_join c names :
  c ≠ slash →
  contains_char c (join "/" names) = existsb (contains_char c) names.
Proof.
  intros Hc. induction names as [|w ws IH]; [done|].
  destruct ws as [|w' ws].
  - simpl. by rewrite orb_false_r.
  - change (join "/" (w :: w' :: ws)) with (w +:+ "/" +:+ join "/" (w' :: ws)).
    rewrite !contains_char_app, IH. simpl.
    rewrite bool_decide_eq_false_2; [|done]. done.
Qed.

Lemma endswith_char_app a b c :
  b ≠ EmptyString → endswith_char (a +:+ b) c = endswith_char b c.
Proof.
  intros Hb. induction a as [|x a IH]; simpl; [done|].
  rewrite IH. destruct (a +:+ b) eqn:E; [|done].
  destruct a; simpl in E; [done|discriminate].
Qed.

Lemma startswith_slash s :
  startswith s "/" = true ↔ ∃ s', s = String slash s'.
Proof.
  destruct s as [|x s]; simpl.
  - split; [done|]. by intros [? ?].
  - rewrite andb_true_r, bool_decide_eq_true. split.
    + intros <-. by eexists.
    + intros [? [= -> _]]. done.
Qed.

Lemma startswith_slash_false s :
  startswith s "/" = false ↔ s = EmptyString ∨ ∃ c s', s = String c s' ∧ c ≠ slash.
Proof.
  destruct s as [|x s]; simpl.
  - split; [by left|done].
  - rewrite andb_true_r, bool_decide_eq_false. split.
    + intros H. right. exists x, s. split; [done|]. intros ->. by apply H.
    + intros [?|(c & s' & [= -> ->] & Hc)]; [done|]. intros <-. by apply Hc.
Qed.

Lemma startswith_slash_app a b :
  startswith a "/" = true → startswith (a +:+ b) "/" = true.
Proof. intros [s' ->]%startswith_slash. apply startswith_slash. by eexists. Qed.

(** ** Plain templates *)

Lemma newline_split_nonempty s : newline_split s ≠ [].
Proof.
  destruct s as [|c s]; simpl; [done|].
  destruct (decide (c = CR)); [by destruct s as [|c' s]; [|destruct (decide _)]|].
  destruct (decide (c = LF)); [done|]. by destruct (newline_split s).
Qed.

Lemma newline_split_no_cr c s :
  c ≠ CR →
  newline_split (String c s)
  = if decide (c = LF) then EmptyString :: newline_split s
    else match newline_split s with
         | [] => [String c EmptyString]
         | w :: ws => String c w :: ws
         end.
Proof. intros Hc. simpl. by rewrite decide_False. Qed.

Lemma join_newline_split s :
  contains_char CR s = false →
  join (String LF EmptyString) (newline_split s) = s.
Proof.
  induction s as [|c s IH]; [done|]. simpl contains_char.
  intros [Hc Hs]%orb_false_iff. apply bool_decide_eq_false in Hc.
  rewrite newline_split_no_cr by done. specialize (IH Hs).
  pose proof (newline_split_nonempty s) as Hne.
  destruct (decide (c = LF)) as [->|Hl].
  - destruct (newline_split s) as [|w ws]; [done|].
    change (join (String LF "") ("" :: w :: ws))
      with (String LF (join (String LF "") (w :: ws))). by rewrite IH.
  - destruct (newline_split s) as [|w ws]; [done|]. rewrite <- IH.
    destruct ws; done.
Qed.

Lemma last_newline_split s :
  contains_char CR s = false →
  last (newline_split s) = Some EmptyString
  ↔ s = EmptyString ∨ endswith_char s LF = true.
Proof.
  induction s as [|c s IH]; [by split; [left|]|]. simpl contains_char.
  intros [Hc Hs]%orb_false_iff. apply bool_decide_eq_false in Hc.
  rewrite newline_split_no_cr by done. specialize (IH Hs).
  pose proof (newline_split_nonempty s) as Hne.
  pose proof (join_newline_split s Hs) as Hj.
  destruct (decide (c = LF)) as [->|Hl].
  - destruct (newline_split s) as [|w ws] eqn:E; [done|].
    change (last ("" :: w :: ws)) with (last (w :: ws)). rewrite IH.
    destruct s as [|d s]; simpl.
    + split; [by right|by left].
    + split; (intros [?|?]; [done|by right]).
  - destruct (newline_split s) as [|w ws] eqn:E; [done|].
    destruct ws as [|w' ws].
    + simpl in Hj. subst w. simpl last. split; [done|].
      intros [?|He]; [done|]. exfalso.
      destruct s as [|d s]; simpl in He.
      * by apply bool_decide_eq_true in He.
      * assert (Some (String d s) = Some EmptyString) as [=]. apply IH. by right.
    + change (last (String c w :: w' :: ws)) with (last (w :: w' :: ws)).
      rewrite IH. destruct s as [|d s]; [done|]. simpl.
      split; (intros [?|?]; [done|by right]).
Qed.

(** A plain text without carriage returns that does not end with a newline
    renders to itself. *)
Lemma render_plain_fixed s :
  contains_char CR s = false → endswith_char s LF = false →
  render_plain s = s.
Proof.
  intros Hc He. unfold render_plain, drop_empty_last_line.
  destruct (decide (s = EmptyString)) as [->|Hs]; [done|].
  pose proof (last_newline_split s Hc) as Hl.
  destruct (last (newline_split s)) as [[|d t]|] eqn:E.
  - destruct Hl as [Hl _]. destruct Hl as [?|?]; [done|done|congruence].
  - by apply join_newline_split.
  - by apply join_newline_split.
Qed.

(** ** The file system and [normpath] *)

Lemma node_at_app n l1 l2 :
  node_at n (l1 ++ l2)
  = match node_at n l1 with Some m => node_at m l2 | None => None end.
Proof.
  revert n. induction l1 as [|x l1 IH]; intros n; simpl; [done|].
  destruct n as [|es]; [done|].
  destruct (lookup_entry x es); [apply IH|done].
Qed.

Lemma node_at_snoc n l x :
  node_at n (l ++ [x])
  = match node_at n l with
    | Some (Dir es) => lookup_entry x es
    | _ => None
    end.
Proof.
  rewrite node_at_app. destruct (node_at n l) as [[|es]|]; simpl; [done| |done].
  by destruct (lookup_entry x es).
Qed.

Lemma node_at_parent r loc :
  is_Some (node_at r loc) → loc ≠ [] →
  ∃ es, node_at r (removelast loc) = Some (Dir es).
Proof.
  intros Hs Hne. destruct (exists_last Hne) as (l & x & ->).
  rewrite removelast_last. rewrite node_at_snoc in Hs.
  destruct (node_at r l) as [[|es]|]; [by destruct Hs|by eexists|by destruct Hs].
Qed.

Lemma walk_step_Some r cur c loc :
  walk_step r cur c = Some loc →
  ∃ l es, cur = Some l ∧ node_at r l = Some (Dir es)
    ∧ (((c = "" ∨ c = ".")%string ∧ loc = l)
       ∨ (c = ".."%string ∧ loc = removelast l)
       ∨ (c ≠ ""%string ∧ c ≠ "."%string ∧ c ≠ ".."%string
          ∧ is_Some (lookup_entry c es) ∧ loc = l ++ [c])).
Proof.
  unfold walk_step. destruct cur as [l|]; [|done].
  destruct (node_at r l) as [[|es]|] eqn:E; [done| |done].
  intros H. exists l, es. split; [done|]. split; [done|].
  destruct (decide (c = "" ∨ c = ".")%string) as [Hc|Hc].
  { left. by injection H as <-. }
  destruct (decide (c = ".."%string)) as [->|Hd].
  { right; left. by injection H as <-. }
  right; right. destruct (lookup_entry c es) eqn:El; [|done].
  injection H as <-. repeat split; eauto; intros ->; apply Hc; auto.
Qed.

Lemma foldl_walk_None r comps : foldl (walk_step r) None comps = None.
Proof. induction comps; simpl; [done|]. apply IHcomps. Qed.

Lemma walk_step_exists r l c loc :
  walk_step r (Some l) c = Some loc → is_Some (node_at r loc).
Proof.
  intros (l' & es & [= <-] & Hn & [[_ ->]|[[_ ->]|(_ & _ & _ & Hl & ->)]])%walk_step_Some.
  - by rewrite Hn.
  - destruct l as [|x l0] using rev_ind; [simpl; eauto|].
    rewrite removelast_last. rewrite node_at_snoc in Hn.
    destruct (node_at r l0); [eauto|done].
  - rewrite node_at_snoc, Hn. done.
Qed.

Lemma walk_step_file r l c loc content :
  walk_step r (Some l) c = Some loc →
  node_at r loc = Some (File content) →
  c ≠ ""%string ∧ c ≠ "."%string ∧ c ≠ ".."%string ∧ loc = l ++ [c].
Proof.
  intros (l' & es & [= <-] & Hn & [[_ ->]|[[_ ->]|(? & ? & ? & Hl & ->)]])%walk_step_Some Hf.
  - congruence.
  - destruct (decide (l = [])) as [->|Hne]; [simpl in *; congruence|].
    destruct (node_at_parent r l) as [es' He]; [by rewrite Hn|done|]. congruence.
  - done.
Qed.


Lemma plain_last st : Forall plain_name st → last st ≠ Some ".."%string.
Proof.
  intros H Hl. apply last_Some_elem_of in Hl.
  rewrite Forall_forall in H. apply H in Hl. destruct Hl as (_ & _ & Hl & _). done.
Qed.

Lemma normpath_step_stay n st c :
  (c = "" ∨ c = ".")%string → normpath_step n st c = st.
Proof. intros H. unfold normpath_step. by rewrite decide_True. Qed.

Lemma normpath_step_push n st c :
  c ≠ ""%string → c ≠ "."%string → c ≠ ".."%string →
  normpath_step n st c = st ++ [c].
Proof.
  intros H1 H2 H3. unfold normpath_step.
  rewrite decide_False; [|intros [?|?]; done]. rewrite decide_True; [done|by left].
Qed.

Lemma normpath_step_pop st :
  st ≠ [] → last st ≠ Some ".."%string →
  normpath_step 0 st ".." = removelast st.
Proof.
  intros H1 H2. unfold normpath_step.
  rewrite decide_False; [|intros [?|?]; done].
  rewrite decide_False; [by destruct st|].
  intros [?|[[_ ?]|[_ ?]]]; done.
Qed.

Lemma normpath_step_climb st :
  st = [] ∨ last st = Some ".."%string →
  normpath_step 0 st ".." = st ++ [".."%string].
Proof.
  intros H. unfold normpath_step.
  rewrite decide_False; [|intros [?|?]; done].
  rewrite decide_True; [done|]. right.
  destruct H as [->|H]; [by left|right]. split; [|done]. by intros ->.
Qed.

Lemma normpath_climbed_stays comps st :
  head st = Some ".."%string →
  head (foldl (normpath_step 0) st comps) = Some ".."%string.
Proof.
  revert st. induction comps as [|c comps IH]; intros st Hh; simpl; [done|].
  apply IH. unfold normpath_step.
  destruct (decide _); [done|]. destruct (decide _) as [_|Hn].
  - destruct st; [done|]. done.
  - destruct st as [|x st]; [done|]. simpl in Hh. injection Hh as ->.
    destruct st as [|y st]; [|done].
    exfalso. apply Hn. right; right. done.
Qed.

Lemma Forall_removelast {A} (P : A → Prop) l : Forall P l → Forall P (removelast l).
Proof.
  induction l as [|x l IH]; [done|]. intros H. inversion H; subst.
  simpl. destruct l; [done|]. constructor; [done|]. by apply IH.
Qed.

Lemma walk_normalises r S comps st loc :
  Forall plain_name st →
  Forall (λ c, contains_char slash c = false) comps →
  Forall plain_name (foldl (normpath_step 0) st comps) →
  foldl (walk_step r) (Some (S ++ st)) comps = Some loc →
  loc = S ++ foldl (normpath_step 0) st comps.
Proof.
  revert st. induction comps as [|c comps IH]; intros st Hst Hc Hfin Hw; simpl in *.
  { by injection Hw as <-. }
  inversion Hc as [|? ? Hc1 Hc2]; subst.
  destruct (walk_step r (Some (S ++ st)) c) as [l'|] eqn:E;
    [|by rewrite foldl_walk_None in Hw].
  apply walk_step_Some in E as (l & es & [= <-] & Hn & [[Hs ->]|[[-> ->]|(? & ? & ? & _ & ->)]]).
  - rewrite normpath_step_stay in Hfin |- * by done. by apply IH.
  - destruct (decide (st = [])) as [->|Hne].
    + exfalso. rewrite normpath_step_climb in Hfin by auto.
      pose proof (normpath_climbed_stays comps ([] ++ [".."%string]) eq_refl) as Hh.
      destruct (foldl _ _ comps) as [|x xs]; [done|]. simpl in Hh. injection Hh as ->.
      inversion Hfin as [|? ? (_ & _ & ? & _) _]. done.
    + pose proof (plain_last st Hst).
      rewrite normpath_step_pop in Hfin |- * by done.
      rewrite removelast_app in Hw by done.
      apply IH; [by apply Forall_removelast|done|done|done].
  - rewrite normpath_step_push in Hfin |- * by done.
    rewrite <- (assoc_L (++)) in Hw.
    apply IH; [|done|done|done].
    apply Forall_app. split; [done|]. constructor; [|done]. done.
Qed.

Lemma stays_inside_plain comps st :
  Forall plain_name st →
  Forall (λ c, contains_char slash c = false) comps →
  stays_inside (List.length st) comps = true →
  Forall plain_name (foldl (normpath_step 0) st comps).
Proof.
  revert st. induction comps as [|c comps IH]; intros st Hst Hc Hin; simpl in *; [done|].
  inversion Hc as [|? ? Hc1 Hc2]; subst.
  destruct (decide (c = "" ∨ c = ".")%string) as [Hs|Hs].
  { rewrite normpath_step_stay by done. by apply IH. }
  destruct (decide (c = ".."%string)) as [->|Hd].
  - destruct st as [|x st] using rev_ind; [done|].
    rewrite List.length_app in Hin. simpl in Hin. replace (List.length st + 1) with (S (List.length st)) in Hin by lia.
    rewrite normpath_step_pop; [|by destruct st|by apply plain_last].
    rewrite removelast_last. apply Forall_app in Hst as [Hst _]. by apply IH.
  - rewrite normpath_step_push; [|intros ->; apply Hs; auto..|done].
    apply IH; [|done|].
    + apply Forall_app. split; [done|]. constructor; [|done].
      repeat split; try done; intros ->; apply Hs; auto.
    + rewrite List.length_app. simpl. by replace (List.length st + 1) with (S (List.length st)) by lia.
Qed.

Lemma walk_plain r S names :
  Forall plain_name names →
  is_Some (node_at r (S ++ names)) →
  foldl (walk_step r) (Some S) names = Some (S ++ names).
Proof.
  revert S. induction names as [|c names IH]; intros S Hp Hs; simpl.
  { by rewrite app_nil_r. }
  inversion Hp as [|? ? (H1 & H2 & H3 & _) Hp']; subst.
  replace (S ++ c :: names) with ((S ++ [c]) ++ names) in * by (by rewrite <- (assoc_L (++))).
  assert (is_Some (node_at r (S ++ [c]))) as Hc.
  { rewrite node_at_app in Hs. destruct (node_at r (S ++ [c])); [eauto|by destruct Hs]. }
  rewrite node_at_snoc in Hc.
  assert (walk_step r (Some S) c = Some (S ++ [c])) as ->.
  { unfold walk_step. destruct (node_at r S) as [[|es]|]; [by destruct Hc| |by destruct Hc].
    rewrite decide_False by (intros [?|?]; done). rewrite decide_False by done.
    destruct Hc as [? ->]. done. }
  by apply IH.
Qed.

Lemma walk_plain_inv r S names loc :
  Forall plain_name names →
  foldl (walk_step r) (Some S) names = Some loc →
  loc = S ++ names.
Proof.
  revert S. induction names as [|c names IH]; intros S Hp Hw; simpl in *.
  { injection Hw as <-. by rewrite app_nil_r. }
  inversion Hp as [|? ? (H1 & H2 & H3 & _) Hp']; subst.
  destruct (walk_step r (Some S) c) as [l'|] eqn:E;
    [|by rewrite foldl_walk_None in Hw].
  apply walk_step_Some in E as (l & es & [= <-] & Hn & [[[?|?] ?]|[[? ?]|(_ & _ & _ & _ & ->)]]); try done.
  apply IH in Hw; [|done]. by rewrite <- (assoc_L (++)) in Hw.
Qed.

Lemma normpath_plain_id names st :
  Forall plain_name names → foldl (normpath_step 0) st names = st ++ names.
Proof.
  revert st. induction names as [|c names IH]; intros st Hp; simpl.
  { by rewrite app_nil_r. }
  inversion Hp as [|? ? (H1 & H2 & H3 & _) Hp']; subst.
  rewrite normpath_step_push by done. rewrite IH by done. by rewrite <- (assoc_L (++)).
Qed.

Lemma normpath_step_ok n st c :
  Forall comp_ok st → contains_char slash c = false →
  Forall comp_ok (normpath_step n st c).
Proof.
  intros Hst Hc. unfold normpath_step.
  destruct (decide _) as [|Hs]; [done|].
  destruct (decide _).
  - apply Forall_app. split; [done|]. constructor; [|done].
    repeat split; [intros ->; apply Hs; auto..|done].
  - destruct st; [done|]. by apply Forall_removelast.
Qed.

Lemma normpath_fold_ok n comps st :
  Forall comp_ok st → Forall (λ c, contains_char slash c = false) comps →
  Forall comp_ok (foldl (normpath_step n) st comps).
Proof.
  revert st. induction comps as [|c comps IH]; intros st Hst Hc; simpl; [done|].
  inversion Hc; subst. apply IH; [|done]. by apply normpath_step_ok.
Qed.

Lemma comp_ok_plain c : comp_ok c → c ≠ ".."%string → plain_name c.
Proof. intros (? & ? & ?) ?. done. Qed.

Lemma normpath_step_shape st c :
  Forall comp_ok st → contains_char slash c = false →
  (head st ≠ Some ".."%string → Forall plain_name st) →
  head (normpath_step 0 st c) ≠ Some ".."%string →
  Forall plain_name (normpath_step 0 st c).
Proof.
  intros Hok Hc Hst.
  destruct (decide (c = "" ∨ c = ".")%string) as [Hs|Hs].
  { by rewrite normpath_step_stay. }
  destruct (decide (c = ".."%string)) as [->|Hd].
  - destruct (decide (st = [] ∨ last st = Some ".."%string)) as [Hl|Hl].
    + rewrite normpath_step_climb by done. intros Hh. exfalso.
      destruct st as [|x st]; [done|]. simpl in Hh.
      destruct Hl as [?|Hl]; [done|].
      by apply (plain_last (x :: st)); [apply Hst|].
    + rewrite normpath_step_pop by (intros ?; apply Hl; auto).
      destruct st as [|x [|y st]]; [done|by constructor|].
      intros Hh. apply Forall_removelast, Hst. done.
  - rewrite normpath_step_push by (try done; intros ->; apply Hs; auto).
    intros Hh. apply Forall_app. split.
    + destruct st; [done|]. by apply Hst.
    + constructor; [|done]. repeat split; try done; intros ->; apply Hs; auto.
Qed.

Lemma normpath_fold_shape comps st :
  Forall comp_ok st → Forall (λ c, contains_char slash c = false) comps →
  (head st ≠ Some ".."%string → Forall plain_name st) →
  head (foldl (normpath_step 0) st comps) ≠ Some ".."%string →
  Forall plain_name (foldl (normpath_step 0) st comps).
Proof.
  revert st. induction comps as [|c comps IH]; intros st Hok Hc Hst; simpl; [done|].
  inversion Hc; subst. apply IH; [by apply normpath_step_ok|done|].
  by apply normpath_step_shape.
Qed.

Lemma norm_ok p : Forall comp_ok (norm p).
Proof. apply normpath_fold_ok; [done|apply split_no_sep]. Qed.

Lemma norm_shape p : head (norm p) ≠ Some ".."%string → Forall plain_name (norm p).
Proof. apply normpath_fold_shape; [done|apply split_no_sep|done]. Qed.

Lemma join_cons_ne x l : x ≠ EmptyString → join "/" (x :: l) ≠ EmptyString.
Proof.
  intros Hx. destruct l; simpl; [done|]. destruct x; [done|]. done.
Qed.

Lemma isabs_initial_slashes p : isabs p = false → initial_slashes p = 0.
Proof. unfold isabs, initial_slashes. by intros ->. Qed.

Lemma normpath_rel p :
  p ≠ EmptyString → isabs p = false →
  normpath p = match norm p with [] => "."%string | l => join "/" l end.
Proof.
  intros Hp Ha. unfold normpath. rewrite decide_False by done.
  rewrite isabs_initial_slashes by done. simpl. fold (norm p).
  pose proof (norm_ok p) as Hok. destruct (norm p) as [|x l] eqn:E.
  - by rewrite decide_True.
  - rewrite decide_False; [done|]. apply join_cons_ne.
    inversion Hok as [|? ? (? & _) _]. done.
Qed.

Lemma normpath_abs p : isabs p = true → startswith (normpath p) "/" = true.
Proof.
  intros Ha. unfold normpath.
  assert (p ≠ EmptyString) by (intros ->; done).
  rewrite decide_False by done. unfold initial_slashes. unfold isabs in Ha. rewrite Ha.
  destruct (_ && _); done.
Qed.

Lemma join_climb l :
  join "/" (".."%string :: l) = ".."%string ∨ startswith (join "/" (".."%string :: l)) "../" = true.
Proof. destruct l; [by left|by right]. Qed.

Lemma plain_join_safe l :
  l ≠ [] → Forall plain_name l →
  startswith (join "/" l) "/" = false
  ∧ join "/" l ≠ ".."%string
  ∧ startswith (join "/" l) "../" = false.
Proof.
  intros Hl Hp. destruct l as [|x l]; [done|].
  inversion Hp as [|? ? (H1 & H2 & H3 & H4) _]; subst.
  destruct x as [|a x1]; [done|]. simpl in H4.
  apply orb_false_iff in H4 as [Ha H4]. apply bool_decide_eq_false in Ha.
  assert (∃ t, join "/" (String a x1 :: l) = String a (x1 +:+ t) ∧ (t = EmptyString ∨ ∃ t', t = String slash t')) as (t & -> & Ht).
  { destruct l as [|y l]; simpl.
    - exists EmptyString. split; [|by left]. f_equal. clear.
      induction x1 as [|c x1 IH]; simpl; [done|by rewrite <- IH].
    - eexists. split; [done|]. right. by eexists. }
  split; [|split].
  - simpl. rewrite bool_decide_eq_false_2; [done|]. by intros <-.
  - intros [= -> Hx]. destruct x1 as [|b x2].
    + by apply H2.
    + simpl in Hx. injection Hx as -> Hx. destruct x2; [|done]. by apply H3.
  - simpl. destruct (bool_decide (_ = a)) eqn:Ea; [|done]. apply bool_decide_eq_true in Ea as <-.
    destruct x1 as [|b x2]; simpl.
    + by destruct H2.
    + simpl in H4. apply orb_false_iff in H4 as [Hb H4]. apply bool_decide_eq_false in Hb.
      destruct (bool_decide (_ = b)) eqn:Eb; [|done]. apply bool_decide_eq_true in Eb as <-.
      destruct x2 as [|c x3]; simpl.
      * by destruct H3.
      * simpl in H4. apply orb_false_iff in H4 as [Hc H4]. apply bool_decide_eq_false in Hc.
        rewrite bool_decide_eq_false_2; [done|]. by intros <-.
Qed.

(** What [safe_join] lets through. *)
Lemma safe_join_Some dir p q :
  p ≠ EmptyString → safe_join dir p = Some q →
  isabs p = false ∧ Forall plain_name (norm p)
  ∧ q = posixpath_join (if decide (dir = "") then "."%string else dir) (normpath p).
Proof.
  intros Hp. unfold safe_join. rewrite (decide_True (P := p ≠ ""%string)) by done.
  destruct (_ || _) eqn:E; [done|]. intros [= <-].
  apply orb_false_iff in E as [E E4]. apply orb_false_iff in E as [E E3].
  apply orb_false_iff in E as [E1 E2]. apply bool_decide_eq_false in E3.
  assert (isabs p = false) as Ha.
  { destruct (isabs p) eqn:Ha; [|done]. apply normpath_abs in Ha. congruence. }
  split; [done|]. split; [|done].
  apply norm_shape. intros Hh. rewrite normpath_rel in E3, E4 by done.
  destruct (norm p) as [|x l]; [done|]. simpl in Hh. injection Hh as ->.
  destruct (join_climb l); congruence.
Qed.

Lemma safe_join_plain dir p :
  p ≠ EmptyString → isabs p = false → Forall plain_name (norm p) →
  safe_join dir p
  = Some (posixpath_join (if decide (dir = "") then "."%string else dir) (normpath p)).
Proof.
  intros Hp Ha Hn. unfold safe_join. rewrite (decide_True (P := p ≠ ""%string)) by done.
  rewrite normpath_rel by done. destruct (norm p) as [|x l] eqn:E; [done|].
  destruct (plain_join_safe (x :: l)) as (H1 & H2 & H3); [done|done|].
  unfold isabs. rewrite H1, H3. rewrite bool_decide_eq_false_2 by done. done.
Qed.

Lemma posixpath_join_rel a q :
  startswith q "/" = false → a ≠ EmptyString → endswith_char a slash = false →
  posixpath_join a q = a +:+ "/" +:+ q.
Proof.
  intros Hq Ha He. unfold posixpath_join. rewrite Hq, He.
  by rewrite bool_decide_eq_false_2.
Qed.

Lemma posixpath_join_abs a q :
  startswith q "/" = true → posixpath_join a q = q.
Proof. intros Hq. unfold posixpath_join. by rewrite Hq. Qed.

(** The static folder of the application of [app.py]. *)
Lemma static_folder_make_app rp secret :
  isabs rp = true →
  startswith (static_folder (make_app rp secret)) "/" = true
  ∧ static_folder (make_app rp secret) ≠ EmptyString
  ∧ endswith_char (static_folder (make_app rp secret)) slash = false.
Proof.
  intros Ha. unfold static_folder, make_app, posixpath_join. simpl.
  assert (∀ t, t ≠ EmptyString → startswith (rp +:+ t) "/" = true ∧ rp +:+ t ≠ EmptyString) as H.
  { intros t _. split; [by apply startswith_slash_app|].
    apply startswith_slash in Ha as [? ->]. done. }
  destruct (_ || _).
  - destruct (H "client/dist"%string) as [? ?]; [done|]. repeat split; [done|done|].
    by rewrite endswith_char_app.
  - destruct (H "/client/dist"%string) as [? ?]; [done|]. repeat split; [done|done|].
    by rewrite endswith_char_app.
Qed.

Lemma contains_char_below c dir q :
  c ≠ slash →
  contains_char c (dir +:+ "/" +:+ q) = contains_char c dir || contains_char c q.
Proof.
  intros Hc. rewrite contains_char_app. f_equal. simpl.
  by rewrite bool_decide_eq_false_2 by (by intros <-).
Qed.

(** Resolution below a directory given by an absolute path. *)
Lemma resolve_below r cw dir q :
  startswith dir "/" = true →
  resolve r cw (dir +:+ "/" +:+ q)
  = if contains_char NUL q then None
    else foldl (walk_step r) (resolve r cw dir) (split slash q).
Proof.
  intros Hd. unfold resolve.
  assert (dir ≠ EmptyString) as Hne by (intros ->; done).
  assert (dir +:+ "/" +:+ q ≠ EmptyString) as Hne'.
  { destruct dir; [done|]. done. }
  rewrite !decide_False by done.
  rewrite contains_char_below by done.
  unfold isabs. rewrite startswith_slash_app, Hd by done.
  rewrite split_app_slash, foldl_app.
  destruct (contains_char NUL dir); simpl.
  - rewrite foldl_walk_None. by destruct (contains_char NUL q).
  - done.
Qed.

(** ** Responses *)

(** Unfolds the monad and the system calls. *)
Ltac unfold_io :=
  unfold finalize, bind, ret, raise, lift, os_path_exists, os_path_isfile,
    os_stat, read_file in *.

Section Responses.

Context {rt : Runtime}.

(** The response of [render_template] as a function of the files. *)
Lemma render_template_response app w :
  (finalize (render_template app "index.html") w).1
  = match stat (root w) (cwd w) (index_path app) with
    | Some (File source) =>
        match render source with
        | Return body => Response 200 "text/html" body
        | Raise e => handle_exception e
        end
    | _ => ErrorPage 500
    end.
Proof.
  unfold render_template, get_source, index_path. unfold_io.
  change (split_template_path "index.html") with (Some ["index.html"%string]).
  simpl.
  destruct (stat (root w) (cwd w) _) as [[source|es]|] eqn:E; simpl;
    repeat (rewrite E; simpl); try done.
  destruct (render source); done.
Qed.

(** The response of [send_from_directory] as a function of the files. *)
Lemma send_from_directory_response app dir p w :
  (finalize (send_from_directory app dir p) w).1
  = match safe_join dir p with
    | None => ErrorPage 404
    | Some q =>
        match stat (root w) (cwd w) (posixpath_join (root_path app) q) with
        | Some (File content) =>
            Response 200
              (default "application/octet-stream"%string
                 (guess_type (basename (posixpath_join (root_path app) q))))
              content
        | _ => ErrorPage 404
        end
    end.
Proof.
  unfold send_from_directory, send_file. unfold_io.
  destruct (safe_join dir p) as [q|]; [|done]. simpl.
  destruct (stat (root w) (cwd w) _) as [[content|es]|] eqn:E; simpl;
    repeat (rewrite E; simpl); done.
Qed.

Lemma handle_missing app p w :
  p = EmptyString
  ∨ stat (root w) (cwd w) (static_folder app +:+ "/" +:+ p) = None →
  (handle app p w).1 = (finalize (render_template app "index.html") w).1.
Proof.
  intros H. rewrite render_template_response.
  unfold handle, finalize at 1, serve, bind at 1.
  destruct (decide (p ≠ ""%string)) as [Hp|Hp].
  - destruct H as [->|H]; [done|].
    unfold os_path_exists. rewrite H. simpl.
    pose proof (render_template_response app
                  (log (EvStat (static_folder app +:+ "/" +:+ p)) w)) as E.
    unfold finalize in E. simpl in E. exact E.
  - pose proof (render_template_response app w) as E.
    unfold finalize in E. exact E.
Qed.

Lemma handle_found app p w :
  p ≠ EmptyString →
  is_Some (stat (root w) (cwd w) (static_folder app +:+ "/" +:+ p)) →
  (handle app p w).1
  = (finalize (send_from_directory app (static_folder app) p) w).1.
Proof.
  intros Hp H. rewrite send_from_directory_response.
  unfold handle, finalize at 1, serve, bind at 1.
  rewrite decide_True by done.
  unfold os_path_exists. rewrite bool_decide_eq_true_2 by done.
  pose proof (send_from_directory_response app (static_folder app) p
                (log (EvStat (static_folder app +:+ "/" +:+ p)) w)) as E.
  unfold finalize in E. simpl in E. exact E.
Qed.

(** The handler only reads: it leaves the files as they are. *)
Lemma handle_same_files app p w : same_files w (handle app p w).2.
Proof.
  unfold handle, serve, send_from_directory, send_file, render_template,
    get_source. unfold_io.
  change (split_template_path "index.html") with (Some ["index.html"%string]).
  repeat (case_match; simplify_eq; simpl in * ); done.
Qed.

(** Its response is a function of the files. *)
Lemma handle_response_same_files app p w w' :
  same_files w w' → (handle app p w').1 = (handle app p w).1.
Proof.
  intros [Hr Hc].
  destruct (decide (p ≠ ""%string
                    ∧ is_Some (stat (root w) (cwd w) (static_folder app +:+ "/" +:+ p))))
    as [[Hp Hs]|Hn].
  - rewrite !handle_found, !send_from_directory_response; [|done|done|done|].
    + by rewrite Hr, Hc.
    + by rewrite <- Hr, <- Hc.
  - assert (p = EmptyString
            ∨ stat (root w) (cwd w) (static_folder app +:+ "/" +:+ p) = None) as H.
    { destruct (decide (p = EmptyString)); [by left|right].
      destruct (stat _ _ _) eqn:E; [|done]. exfalso. apply Hn. eauto. }
    rewrite !handle_missing, !render_template_response; [|done|].
    + by rewrite Hr, Hc.
    + by rewrite <- Hr, <- Hc.
Qed.

End Responses.

Section Assets.

Context {rt : Runtime}.

Lemma handle_exception_render source e :
  render source = Raise e → handle_exception e = ErrorPage 500.
Proof.
  unfold render. destruct (is_plain source); [done|].
  destruct (jinja_engine source); [done|]. by intros [= <-].
Qed.

(** C1, as amended.  A request path that names nothing (the empty path, or
    a path at which [os.path.exists] finds no entry below the static
    folder) is never answered with 404; and when [index.html] is a regular
    file of the template folder that Jinja2 renders to [body], the response
    is 200, [text/html], with [body]: the rendering of the file, not its
    bytes. *)
Theorem missing_path_gets_rendered_index app w p :
  p = EmptyString
  ∨ stat (root w) (cwd w) (static_folder app +:+ "/" +:+ p) = None →
  status_of (handle app p w).1 ≠ 404
  ∧ ∀ source body,
      stat (root w) (cwd w) (index_path app) = Some (File source) →
      render source = Return body →
      (handle app p w).1 = Response 200 "text/html" body.
Proof.
  intros Hp. rewrite handle_missing, render_template_response by done. split.
  - destruct (stat _ _ (index_path app)) as [[source|es]|]; [|done|done].
    destruct (render source) eqn:E; [done|].
    by rewrite (handle_exception_render _ _ E).
  - intros source body -> ->. done.
Qed.

Lemma elem_of_removelast {A} (x : A) l : x ∈ removelast l → x ∈ l.
Proof.
  induction l as [|y l IH]; [done|]. simpl. destruct l as [|z l].
  - by intros ?%elem_of_nil.
  - intros [->|?]%elem_of_cons; [by left|]. right. by apply IH.
Qed.

Lemma norm_elem_of comps st n x :
  x ∈ foldl (normpath_step n) st comps → x ∈ st ∨ x ∈ comps.
Proof.
  revert st. induction comps as [|c comps IH]; intros st Hx; simpl in *; [by left|].
  apply IH in Hx as [Hx|Hx]; [|right; by right].
  unfold normpath_step in Hx.
  destruct (decide _); [by left|]. destruct (decide _).
  - apply elem_of_app in Hx as [?|Hx]; [by left|].
    apply list_elem_of_singleton in Hx as ->. right; by left.
  - destruct st as [|y st]; [by left|]. left. by apply elem_of_removelast.
Qed.

Lemma contains_char_normalised c p :
  c ≠ slash → contains_char c p = false →
  contains_char c (join "/" (norm p)) = false.
Proof.
  intros Hc Hp. rewrite contains_char_join by done.
  rewrite contains_char_split in Hp by done.
  destruct (existsb _ (norm p)) eqn:E; [|done].
  apply existsb_exists in E as (x & Hx & Hcx).
  apply list_elem_of_In, norm_elem_of in Hx as [Hx|Hx]; [by apply elem_of_nil in Hx|].
  assert (existsb (contains_char c) (split slash p) = true) as E'; [|congruence].
  apply existsb_exists. exists x. split; [by apply list_elem_of_In|done].
Qed.

(** The file a path names, when that path stays inside the static folder. *)
Lemma stat_file_inside r cw dir p content :
  startswith dir "/" = true →
  stat r cw (dir +:+ "/" +:+ p) = Some (File content) →
  Forall plain_name (norm p) →
  ∃ name, last (split slash p) = Some name ∧ norm p ≠ []
    ∧ stat r cw (dir +:+ "/" +:+ join "/" (norm p)) = Some (File content)
    ∧ last (norm p) = Some name.
Proof.
  intros Hd Hs Hn. unfold stat in Hs.
  destruct (resolve r cw (dir +:+ "/" +:+ p)) as [loc|] eqn:E; [|done].
  rewrite resolve_below in E by done.
  destruct (contains_char NUL p) eqn:Hnul; [done|].
  destruct (resolve r cw dir) as [S|] eqn:ES; [|by rewrite foldl_walk_None in E].
  pose proof (walk_normalises r S (split slash p) [] loc) as Hloc.
  rewrite app_nil_r in Hloc. specialize (Hloc (Forall_nil_2 _) (split_no_sep _ _) Hn E).
  fold (norm p) in Hloc.
  destruct (split slash p) as [|c cs _] eqn:Esp using rev_ind;
    [by destruct (split_nonempty slash p)|].
  rewrite foldl_app in E. simpl in E.
  destruct (foldl (walk_step r) (Some S) cs) as [l|] eqn:El;
    [|discriminate E].
  apply walk_step_file with (content := content) in E as (H1 & H2 & H3 & E); [|done].
  assert (norm p = foldl (normpath_step 0) [] cs ++ [c]) as En.
  { unfold norm. rewrite Esp, foldl_app. simpl. by rewrite normpath_step_push. }
  exists c. rewrite last_snoc. split; [done|]. split.
  { rewrite En. by intros [_ ?]%app_eq_nil. }
  split; [|by rewrite En, last_snoc].
  unfold stat. rewrite resolve_below by done.
  rewrite contains_char_normalised by done. rewrite ES.
  rewrite split_join.
  - rewrite walk_plain; [by rewrite <- Hloc|done|]. rewrite <- Hloc. by rewrite Hs.
  - rewrite En. by intros [_ ?]%app_eq_nil.
  - eapply Forall_impl; [exact Hn|]. by intros x (_ & _ & _ & ?).
Qed.

Lemma basename_below dir q name :
  last (split slash q) = Some name → basename (dir +:+ "/" +:+ q) = name.
Proof.
  intros Hl. unfold basename. rewrite split_app_slash.
  pose proof (split_nonempty slash q) as Hne.
  destruct (split slash q) as [|c cs _] using rev_ind; [done|].
  rewrite last_snoc in Hl. injection Hl as ->.
  by rewrite (assoc_L (++)), last_snoc.
Qed.

Lemma inside_root_plain p :
  inside_root p = true → isabs p = false ∧ Forall plain_name (norm p).
Proof.
  unfold inside_root. intros [Ha Hs]%andb_true_iff.
  apply negb_true_iff in Ha. split; [done|].
  apply (stays_inside_plain _ []); [done|apply split_no_sep|done].
Qed.

(** What [send_from_directory] answers on such a path. *)
Lemma send_inside_file rp secret w p content :
  isabs rp = true →
  inside_root p = true →
  stat (root w) (cwd w) (static_folder (make_app rp secret) +:+ "/" +:+ p)
  = Some (File content) →
  p ≠ EmptyString
  ∧ (finalize
       (send_from_directory (make_app rp secret)
          (static_folder (make_app rp secret)) p) w).1
    = Response 200
        (default "application/octet-stream"%string
           (guess_type (basename p)))
        content.
Proof.
  intros Hrp [Ha Hn]%inside_root_plain Hs.
  destruct (static_folder_make_app rp secret Hrp) as (Hd1 & Hd2 & Hd3).
  set (app := make_app rp secret) in *.
  destruct (stat_file_inside _ _ _ _ _ Hd1 Hs Hn) as (name & Hl & Hne & Hs' & Hl').
  assert (p ≠ EmptyString) as Hp.
  { intros ->. vm_compute in Hne. done. }
  split; [done|]. rewrite send_from_directory_response.
  rewrite safe_join_plain by done. rewrite decide_False by done.
  rewrite normpath_rel by done.
  assert (match norm p with [] => "."%string | x :: l => join "/" (x :: l) end
          = join "/" (norm p)) as ->.
  { destruct (norm p); [by destruct Hne|done]. }
  destruct (plain_join_safe (norm p)) as (Hj & _ & _); [done|done|].
  rewrite (posixpath_join_rel (static_folder app)) by done.
  rewrite posixpath_join_abs by (by apply startswith_slash_app).
  rewrite Hs'. f_equal. f_equal. f_equal.
  rewrite (basename_below _ _ name).
  - unfold basename. by rewrite Hl.
  - rewrite split_join; [done|done|].
    eapply Forall_impl; [exact Hn|]. by intros y (_ & _ & _ & ?).
Qed.

(** C2, as amended.  When the request path, read from the static folder,
    stays inside it (it is relative and never climbs above the folder) and
    names a regular file, the application's root path being absolute, as
    Flask makes it, the response is 200 with exactly the bytes of that
    file, typed by [mimetypes.guess_type] on the file name. *)
Theorem existing_asset_is_sent rp secret w p content :
  isabs rp = true →
  inside_root p = true →
  stat (root w) (cwd w) (static_folder (make_app rp secret) +:+ "/" +:+ p)
  = Some (File content) →
  (handle (make_app rp secret) p w).1
  = Response 200
      (default "application/octet-stream"%string (guess_type (basename p)))
      content.
Proof.
  intros Hrp Hin Hs.
  destruct (send_inside_file rp secret w p content Hrp Hin Hs) as [Hp Hsend].
  (* the existence check of the view succeeds, and hands over *)
  assert (is_Some (stat (root w) (cwd w)
                     (static_folder (make_app rp secret) +:+ "/" +:+ p)))
    as Hex by (by rewrite Hs).
  rewrite (handle_found _ _ _ Hp Hex). exact Hsend.
Qed.

End Assets.

Section Traversal.

Context {rt : Runtime}.

Lemma plain_stays_inside comps st :
  Forall plain_name st →
  Forall (λ c, contains_char slash c = false) comps →
  Forall plain_name (foldl (normpath_step 0) st comps) →
  stays_inside (List.length st) comps = true.
Proof.
  revert st. induction comps as [|c comps IH]; intros st Hst Hc Hfin; simpl in *; [done|].
  inversion Hc as [|? ? Hc1 Hc2]; subst.
  destruct (decide (c = "" ∨ c = ".")%string) as [Hs|Hs].
  { rewrite normpath_step_stay in Hfin by done. by apply IH. }
  destruct (decide (c = ".."%string)) as [->|Hd].
  - destruct st as [|x st _] using rev_ind.
    + exfalso. rewrite normpath_step_climb in Hfin by auto.
      pose proof (normpath_climbed_stays comps ([] ++ [".."%string]) eq_refl) as Hh.
      destruct (foldl _ _ comps) as [|y ys]; [done|]. simpl in Hh. injection Hh as ->.
      inversion Hfin as [|? ? (_ & _ & ? & _) _]. done.
    + rewrite normpath_step_pop in Hfin;
        [|by intros [_ ?]%app_eq_nil|by apply plain_last].
      rewrite removelast_last in Hfin. apply Forall_app in Hst as [Hst _].
      rewrite List.length_app. simpl.
      replace (List.length st + 1) with (S (List.length st)) by lia. by apply IH.
  - rewrite normpath_step_push in Hfin; [|intros ->; apply Hs; auto..|done].
    specialize (IH (st ++ [c])). rewrite List.length_app in IH. simpl in IH.
    replace (List.length st + 1) with (S (List.length st)) in IH by lia.
    apply IH; [|done|done].
    apply Forall_app. split; [done|]. constructor; [|done].
    repeat split; try done; intros ->; apply Hs; auto.
Qed.

Lemma safe_join_inside dir p q :
  p ≠ EmptyString → safe_join dir p = Some q → inside_root p = true.
Proof.
  intros Hp (Ha & Hn & _)%safe_join_Some; [|done].
  unfold inside_root. rewrite Ha. simpl.
  apply (plain_stays_inside _ []); [done|apply split_no_sep|done].
Qed.

(** Where a file that [send_from_directory] sends lies. *)
Lemma sent_file_location rp secret w p q content :
  isabs rp = true → p ≠ EmptyString →
  safe_join (static_folder (make_app rp secret)) p = Some q →
  stat (root w) (cwd w) (posixpath_join rp q) = Some (File content) →
  ∃ S, resolve (root w) (cwd w) (static_folder (make_app rp secret)) = Some S
    ∧ Forall plain_name (norm p)
    ∧ node_at (root w) (S ++ norm p) = Some (File content).
Proof.
  intros Hrp Hp Hq Hs.
  destruct (static_folder_make_app rp secret Hrp) as (Hd1 & Hd2 & Hd3).
  set (dir := static_folder (make_app rp secret)) in *.
  apply safe_join_Some in Hq as (Ha & Hn & ->); [|done].
  rewrite decide_False in Hs by done. rewrite normpath_rel in Hs by done.
  assert (∀ t, startswith t "/" = false →
               posixpath_join rp (posixpath_join dir t) = dir +:+ "/" +:+ t) as Hj.
  { intros t Ht. rewrite (posixpath_join_rel dir) by done.
    by rewrite posixpath_join_abs by (by apply startswith_slash_app). }
  unfold stat in Hs.
  destruct (decide (norm p = [])) as [En|En].
  - rewrite En, Hj in Hs by done.
    destruct (resolve _ _ _) as [loc|] eqn:E; [|done].
    rewrite resolve_below in E by done. simpl in E.
    destruct (resolve (root w) (cwd w) dir) as [S|] eqn:ES; [|done].
    change (split slash ".") with ["."%string] in E. simpl in E.
    by apply walk_step_file with (content := content) in E as (_ & ? & _).
  - assert (match norm p with [] => "."%string | x :: l => join "/" (x :: l) end
            = join "/" (norm p)) as Em by (by destruct (norm p)).
    destruct (plain_join_safe (norm p)) as (Hs1 & _ & _); [done|done|].
    rewrite Em, Hj in Hs by done.
    destruct (resolve _ _ _) as [loc|] eqn:E; [|done].
    rewrite resolve_below in E by done.
    destruct (contains_char NUL _); [done|].
    destruct (resolve (root w) (cwd w) dir) as [S|] eqn:ES;
      [|by rewrite foldl_walk_None in E].
    rewrite split_join in E.
    + apply walk_plain_inv in E as ->; [|done]. by exists S.
    + done.
    + eapply Forall_impl; [exact Hn|]. by intros y (_ & _ & _ & ?).
Qed.

(** C5, as amended.  The existence check is [os.path.exists], which holds
    of directories too: a non-empty request path that names an existing
    directory passes it, [send_from_directory] then finds no regular file,
    and the response is 404, not the fallback. *)
Theorem existing_directory_is_not_found rp secret w p entries :
  isabs rp = true →
  p ≠ EmptyString →
  stat (root w) (cwd w) (static_folder (make_app rp secret) +:+ "/" +:+ p)
  = Some (Dir entries) →
  (handle (make_app rp secret) p w).1 = ErrorPage 404.
Proof.
  intros Hrp Hp Hs.
  destruct (static_folder_make_app rp secret Hrp) as (Hd1 & Hd2 & Hd3).
  rewrite handle_found, send_from_directory_response; [|done|by rewrite Hs].
  destruct (safe_join _ p) as [q|] eqn:Eq; [|done]. simpl.
  destruct (stat _ _ (posixpath_join rp q)) as [[content|es]|] eqn:E; [|done|done].
  exfalso.
  destruct (sent_file_location _ _ _ _ _ _ Hrp Hp Eq E) as (S & ES & Hn & Hf).
  unfold stat in Hs.
  destruct (resolve _ _ (_ +:+ "/" +:+ p)) as [loc|] eqn:El; [|done].
  rewrite resolve_below in El by done.
  destruct (contains_char NUL p); [done|]. rewrite ES in El.
  pose proof (walk_normalises (root w) S (split slash p) [] loc) as Hloc.
  rewrite app_nil_r in Hloc.
  specialize (Hloc (Forall_nil_2 _) (split_no_sep _ _) Hn El).
  fold (norm p) in Hloc. subst loc. congruence.
Qed.

(** C3, as amended.  Whatever the request path, the response is the one of
    the empty path (the fallback), or a 404, or a 200 that carries the
    bytes of a regular file reached from the static folder through plain
    names only: nothing outside of the static folder is ever sent.  A path
    that leaves the static folder gets the fallback when nothing exists
    where it leads, and 404 when something does. *)
Theorem traversal_never_leaves_the_static_folder rp secret w p :
  isabs rp = true →
  ((handle (make_app rp secret) p w).1 = (handle (make_app rp secret) "" w).1
   ∨ (handle (make_app rp secret) p w).1 = ErrorPage 404
   ∨ ∃ S names content mimetype,
       resolve (root w) (cwd w) (static_folder (make_app rp secret)) = Some S
       ∧ Forall plain_name names
       ∧ node_at (root w) (S ++ names) = Some (File content)
       ∧ (handle (make_app rp secret) p w).1 = Response 200 mimetype content)
  ∧ (p ≠ EmptyString → inside_root p = false →
     (handle (make_app rp secret) p w).1
     = match stat (root w) (cwd w)
               (static_folder (make_app rp secret) +:+ "/" +:+ p) with
       | Some _ => ErrorPage 404
       | None => (handle (make_app rp secret) "" w).1
       end).
Proof.
  intros Hrp. set (app := make_app rp secret).
  assert (∀ w', (handle app "" w').1
                = (finalize (render_template app "index.html") w').1) as Hfb.
  { intros w'. apply handle_missing. by left. }
  destruct (decide (p = EmptyString)) as [->|Hp].
  { split; [by left|done]. }
  destruct (stat (root w) (cwd w) (static_folder app +:+ "/" +:+ p))
    as [n|] eqn:Es.
  2:{ assert ((handle app p w).1 = (handle app "" w).1) as E.
      { rewrite Hfb. apply handle_missing. by right. }
      split; [by left|]. intros _ _. done. }
  assert ((handle app p w).1
          = (finalize (send_from_directory app (static_folder app) p) w).1) as E.
  { apply handle_found; [done|]. by rewrite Es. }
  rewrite E, send_from_directory_response. split.
  - destruct (safe_join _ p) as [q|] eqn:Eq; [|right; by left]. simpl.
    destruct (stat _ _ (posixpath_join rp q)) as [[content|es]|] eqn:Ef;
      [|right; by left..].
    right; right.
    destruct (sent_file_location _ _ _ _ _ _ Hrp Hp Eq Ef) as (S & ES & Hn & Hf).
    by eexists S, (norm p), content, _.
  - intros _ Hout. destruct (safe_join _ p) as [q|] eqn:Eq; [|done].
    apply safe_join_inside in Eq; [congruence|done].
Qed.

End Traversal.

Section Index.

Context {rt : Runtime}.

Lemma index_path_make_app rp secret :
  isabs rp = true →
  index_path (make_app rp secret)
  = static_folder (make_app rp secret) +:+ "/" +:+ "index.html".
Proof.
  intros Hrp.
  destruct (static_folder_make_app rp secret Hrp) as (Hd1 & Hd2 & Hd3).
  unfold index_path.
  change (posixpath_join (root_path (make_app rp secret))
            (template_folder (make_app rp secret)))
    with (static_folder (make_app rp secret)).
  by rewrite posixpath_join_rel.
Qed.

Lemma render_plain_template source :
  is_plain source = true →
  contains_char CR source = false → endswith_char source LF = false →
  render source = Return source.
Proof.
  intros Hp Hc He. unfold render. rewrite Hp. f_equal.
  by apply render_plain_fixed.
Qed.

(** C6, as amended.  With [index.html] a regular file, the empty path is
    answered with the Jinja2 rendering of the file (or 500 when rendering
    fails), the path [index.html] with its bytes, typed after its name; the
    two responses are equal exactly when the file renders to itself and
    its guessed type is [text/html]. *)
Theorem empty_path_renders_what_index_path_sends rp secret w source :
  isabs rp = true →
  stat (root w) (cwd w) (index_path (make_app rp secret)) = Some (File source) →
  (handle (make_app rp secret) "" w).1
  = match render source with
    | Return body => Response 200 "text/html" body
    | Raise _ => ErrorPage 500
    end
  ∧ (handle (make_app rp secret) "index.html" w).1
    = Response 200
        (default "application/octet-stream"%string (guess_type "index.html"))
        source
  ∧ ((handle (make_app rp secret) "" w).1
     = (handle (make_app rp secret) "index.html" w).1
     ↔ render source = Return source
       ∧ default "application/octet-stream"%string (guess_type "index.html")
         = "text/html"%string).
Proof.
  intros Hrp Hs.
  assert ((handle (make_app rp secret) "" w).1
          = match render source with
            | Return body => Response 200 "text/html" body
            | Raise _ => ErrorPage 500
            end) as E1.
  { rewrite handle_missing, render_template_response by (by left). rewrite Hs.
    destruct (render source) eqn:E; [done|]. by apply handle_exception_render in E. }
  assert ((handle (make_app rp secret) "index.html" w).1
          = Response 200
              (default "application/octet-stream"%string (guess_type "index.html"))
              source) as E2.
  { rewrite index_path_make_app in Hs by done.
    destruct (send_inside_file rp secret w "index.html" source Hrp eq_refl Hs)
      as [Hp Hsend].
    rewrite handle_found; [exact Hsend|done|by rewrite Hs]. }
  split; [done|]. split; [done|]. rewrite E1, E2.
  destruct (render source) as [body|e]; split.
  - by intros [= -> ->].
  - by intros [[= ->] ->].
  - done.
  - by intros [? _].
Qed.

End Index.

(** ** Start-up *)

Lemma main_run w :
  main w
  = if bool_decide (5000 ∈ ports_in_use w)
    then (Exited 1, log (EvGetenv "SESSION_SECRET") w)
    else (Listening (make_app (module_dir w) (environ w !! "SESSION_SECRET"))
            "0.0.0.0" 5000,
          log (EvBind "0.0.0.0" 5000) (log (EvGetenv "SESSION_SECRET") w)).
Proof.
  unfold main, create_app, app_run, bind, os_environ_get, ret. simpl.
  by destruct (bool_decide _).
Qed.


(** C4, as amended.  Start-up never looks at the file system: when port
    5000 is free the process reads the environment, binds 0.0.0.0:5000 and
    listens, whatever the files are.  A missing [index.html] shows at
    request time only: a request whose path names nothing is then answered
    with 500. *)
Theorem startup_does_not_look_at_the_files {rt : Runtime} w :
  5000 ∉ ports_in_use w →
  (main w).1
  = Listening (make_app (module_dir w) (environ w !! "SESSION_SECRET"))
      "0.0.0.0" 5000
  ∧ trace (main w).2
    = trace w ++ [EvGetenv "SESSION_SECRET"; EvBind "0.0.0.0" 5000]
  ∧ same_files w (main w).2
  ∧ ∀ app p,
      stat (root w) (cwd w) (index_path app) = None →
      p = EmptyString
      ∨ stat (root w) (cwd w) (static_folder app +:+ "/" +:+ p) = None →
      (handle app p (main w).2).1 = ErrorPage 500.
Proof.
  intros Hport. rewrite main_run, bool_decide_eq_false_2 by done. simpl.
  split; [done|]. split; [by rewrite <- (assoc_L (++))|]. split; [done|].
  intros app p Hi Hp. rewrite handle_missing, render_template_response by done.
  simpl. by rewrite Hi.
Qed.


(** ** Routing *)

Lemma url_map_methods app r :
  r ∈ url_map app → rule_methods r = [GET; HEAD; OPTIONS].
Proof.
  unfold url_map. rewrite !elem_of_cons, elem_of_nil.
  intros [->|[->|[->|[]]]]; reflexivity.
Qed.

Lemma url_map_matches app path :
  path = EmptyString ∨ startswith path "/" = false →
  omap (λ r, pair r <$> match_rule r ("/" +:+ path)) (url_map app) ≠ [].
Proof.
  intros Hp Hnil.
  assert (∃ r, r ∈ url_map app ∧ is_Some (match_rule r ("/" +:+ path)))
    as (r & Hr & [arg Ha]).
  { destruct (decide (path = EmptyString)) as [->|Hne].
    - exists (add_url_rule "/" false (Some ""%string) None ServeEndpoint).
      split; [unfold url_map; rewrite !elem_of_cons; auto|]. by eexists.
    - exists (add_url_rule "/" true None None ServeEndpoint).
      split; [unfold url_map; rewrite !elem_of_cons; auto|].
      destruct Hp as [?|Hs]; [done|].
      apply startswith_slash_false in Hs as [?|(c & s' & -> & Hc)]; [done|].
      unfold match_rule. simpl. rewrite decide_False by done. by eexists. }
  assert ((r, arg) ∈ omap (λ r, pair r <$> match_rule r ("/" +:+ path)) (url_map app)) as Hin.
  { apply list_elem_of_omap. exists r. split; [done|]. by rewrite Ha. }
  rewrite Hnil in Hin. by apply elem_of_nil in Hin.
Qed.

Lemma lstrip_slash_id path :
  path = EmptyString ∨ startswith path "/" = false → lstrip_slash path = path.
Proof.
  intros [->|Hs]; [done|].
  apply startswith_slash_false in Hs as [->|(c & s' & -> & Hc)]; [done|].
  simpl. by rewrite decide_False.
Qed.

(** On a path with one leading slash the rules see the path itself. *)
Lemma path_part_slash path :
  path = EmptyString ∨ startswith path "/" = false →
  ("/" +:+ path ≠ EmptyString)
  ∧ "/" +:+ lstrip_slash ("/" +:+ path) = "/" +:+ path.
Proof.
  intros Hp. split; [done|].
  change ("/" +:+ path) with (String "/" path) at 1.
  cbn [lstrip_slash]. rewrite decide_True by done. by rewrite lstrip_slash_id.
Qed.

(** Unfolds the dispatch on a path with one leading slash. *)
Ltac unfold_dispatch Hp :=
  unfold full_dispatch_request, dispatch_request;
  let Hne := fresh in
  let Hl := fresh in
  destruct (path_part_slash _ Hp) as [Hne Hl];
  rewrite decide_False by exact Hne; rewrite Hl; clear Hne Hl; cbv zeta.

(** C10.  On every URL path that the routes of [serve] match, a request
    whose method is not GET, HEAD or OPTIONS is answered with 405, and the
    state is left untouched: neither the existence check nor any file read
    takes place. *)
Theorem other_methods_are_not_allowed {rt : Runtime} app m path w :
  m ≠ GET → m ≠ HEAD → m ≠ OPTIONS →
  path = EmptyString ∨ startswith path "/" = false →
  full_dispatch_request app m ("/" +:+ path) w = (ErrorPage 405, w).
Proof.
  intros H1 H2 H3 Hp. unfold_dispatch Hp. unfold finalize.
  pose proof (url_map_matches app path Hp) as Hne.
  destruct (omap _ (url_map app)) as [|h hits] eqn:Eh; [done|].
  destruct (List.find _ (h :: hits)) as [[r arg]|] eqn:Ef; [|done].
  exfalso. apply find_some in Ef as [Hin Hm].
  apply bool_decide_eq_true in Hm. simpl in Hm.
  rewrite <- Eh in Hin. apply list_elem_of_In, list_elem_of_omap in Hin as (r' & Hr' & Hf).
  destruct (match_rule r' _); [|done]. injection Hf as <- _.
  rewrite (url_map_methods app r') in Hm by done.
  rewrite !elem_of_cons, elem_of_nil in Hm.
  destruct Hm as [?|[?|[?|[]]]]; done.
Qed.

(** ** The serving process *)

Ltac unfold_proc :=
  unfold proc_bind, proc_ret, proc_raise, in_machine, is_up_to_date,
    os_path_getmtime in *.

Section ProcessProps.

Context {rt : Runtime} {jc : Compiler}.

Lemma mtime_of_same_site s s' path :
  same_site s s' → mtime_of s' path = mtime_of s path.
Proof. intros (Hr & Hc & Hm & _). unfold mtime_of. by rewrite Hr, Hc, Hm. Qed.

Lemma index_loaded_same_site app s s' :
  same_site s s' → index_loaded app s' = index_loaded app s.
Proof.
  intros H. unfold index_loaded. rewrite (mtime_of_same_site s s') by done.
  destruct H as (Hr & Hc & _). by rewrite Hr, Hc.
Qed.

Lemma cache_answers_same_site s s' t :
  same_site s s' → cache_answers s' t = cache_answers s t.
Proof.
  intros H. unfold cache_answers. rewrite (mtime_of_same_site s s') by done.
  destruct H as (_ & _ & _ & Ha). by rewrite Ha.
Qed.

Lemma index_template_same_site app s s' :
  same_site s s' → template_cache s' = template_cache s →
  index_template app s' = index_template app s.
Proof.
  intros H Hc. unfold index_template. rewrite Hc.
  rewrite (index_loaded_same_site app s s') by done.
  destruct (_ !! _); [|done]. by rewrite (cache_answers_same_site s s').
Qed.



Lemma load_index app s :
  (load app "index.html" s).1 = index_loaded app s
  ∧ same_site s (load app "index.html" s).2
  ∧ template_cache (load app "index.html" s).2 = template_cache s.
Proof.
  unfold load, get_source, index_loaded, same_site, mtime_of.
  change (template_filename app "index.html") with (index_path app).
  change (split_template_path "index.html") with (Some ["index.html"%string]).
  change (foldl posixpath_join _ ["index.html"%string]) with (index_path app).
  unfold_io. unfold_proc. unfold index_path. simpl.
  destruct (stat (root (machine s)) (cwd (machine s)) _)
    as [[source|es]|] eqn:E; simpl; repeat (rewrite E; simpl); try done.
  by destruct (compiles source).
Qed.

Lemma same_site_refl s : same_site s s.
Proof. by repeat split. Qed.

Lemma same_site_trans s1 s2 s3 :
  same_site s1 s2 → same_site s2 s3 → same_site s1 s3.
Proof.
  intros (?&?&?&?) (?&?&?&?). repeat split; by etrans.
Qed.

Lemma cache_loaded_same_site app s s' :
  same_site s s' → template_cache s' = template_cache s →
  cache_loaded app s' = cache_loaded app s.
Proof.
  intros H Hc. unfold cache_loaded.
  by rewrite (index_loaded_same_site app s s'), Hc.
Qed.

Lemma load_and_cache_index app s :
  (load_and_cache app "index.html" s).1 = index_loaded app s
  ∧ same_site s (load_and_cache app "index.html" s).2
  ∧ template_cache (load_and_cache app "index.html" s).2 = cache_loaded app s.
Proof.
  destruct (load_index app s) as (H1 & H2 & H3).
  unfold load_and_cache, proc_bind, cache_loaded. rewrite <- H1.
  destruct (load app "index.html" s) as [[t|e] s']; simpl in *; [|done].
  by rewrite H3.
Qed.

Lemma is_up_to_date_run t s :
  is_up_to_date t s
  = (Return (bool_decide (mtime_of s (loaded_filename t)
                          = Some (loaded_mtime t))),
     Server (log (EvStat (loaded_filename t)) (machine s)) (mtimes s)
       (auto_reload s) (template_cache s)).
Proof.
  unfold is_up_to_date, os_path_getmtime.
  destruct (mtime_of s (loaded_filename t)) as [now|]; [|done].
  f_equal. f_equal. apply bool_decide_ext. split; congruence.
Qed.

Lemma get_template_index app s :
  (get_template app "index.html" s).1 = index_template app s
  ∧ same_site s (get_template app "index.html" s).2
  ∧ template_cache (get_template app "index.html" s).2 = cache_after app s.
Proof.
  unfold get_template, index_template, cache_after.
  destruct (template_cache s !! "index.html"%string) as [t|] eqn:El;
    [|apply load_and_cache_index].
  unfold cache_answers.
  destruct (auto_reload s) eqn:Ea; simpl;
    [|split; [done|split; [apply same_site_refl|done]]].
  unfold proc_bind. rewrite is_up_to_date_run.
  set (s1 := Server (log _ (machine s)) _ _ _).
  assert (same_site s s1) as Hs1 by (by repeat split).
  assert (template_cache s1 = template_cache s) as Hc1 by done.
  destruct (bool_decide _); [done|].
  destruct (load_and_cache_index app s1) as (H1 & H2 & H3).
  rewrite (index_loaded_same_site app s s1) in H1 by done.
  rewrite (cache_loaded_same_site app s s1) in H3 by done.
  split; [exact H1|]. split; [|exact H3].
  by apply (same_site_trans s s1).
Qed.

Lemma cache_after_same_site app s s' :
  same_site s s' → template_cache s' = template_cache s →
  cache_after app s' = cache_after app s.
Proof.
  intros H Hc. unfold cache_after.
  rewrite (cache_loaded_same_site app s s'), Hc by done.
  destruct (_ !! _); [|done]. by rewrite (cache_answers_same_site s s').
Qed.

Lemma render_cached_template_run app s :
  ∃ o s',
    render_cached_template app "index.html" s = (o, s')
    ∧ match o with Return r => r | Raise e => handle_exception e end
      = render_loaded (index_template app s)
    ∧ same_site s s'
    ∧ template_cache s' = cache_after app s.
Proof.
  destruct (get_template_index app s) as (H1 & H2 & H3).
  unfold render_cached_template, proc_bind, in_machine, lift, proc_ret.
  rewrite <- H1, <- H3.
  destruct (get_template app "index.html" s) as [[t|e] s']; simpl in *.
  - destruct (render (loaded_source t)) as [body|e]; eauto 10.
  - eauto 10.
Qed.

Lemma send_from_directory_same_files app dir p w :
  same_files w (send_from_directory app dir p w).2.
Proof.
  unfold send_from_directory, send_file. unfold_io.
  repeat (case_match; simplify_eq; simpl in * ); done.
Qed.

(** One request in the process: its response, and the cache it leaves. *)
Lemma handle_in_process_run app p s :
  ∃ r s',
    handle_in_process app p s = (r, s')
    ∧ same_site s s'
    ∧ if decide (p ≠ EmptyString
                 ∧ is_Some (stat (root (machine s)) (cwd (machine s))
                              (static_folder app +:+ "/" +:+ p)))
      then r = (finalize (send_from_directory app (static_folder app) p)
                  (machine s)).1
           ∧ template_cache s' = template_cache s
      else r = render_loaded (index_template app s)
           ∧ template_cache s' = cache_after app s.
Proof.
  unfold handle_in_process, serve_in_process, proc_bind.
  assert (∀ s1, same_site s s1 → template_cache s1 = template_cache s →
            ∃ r s',
              match render_cached_template app "index.html" s1 with
              | (Return r, s') => (r, s')
              | (Raise e, s') => (handle_exception e, s')
              end = (r, s')
              ∧ same_site s s'
              ∧ r = render_loaded (index_template app s)
              ∧ template_cache s' = cache_after app s) as Hfall.
  { intros s1 Hs Hc.
    destruct (render_cached_template_run app s1) as (o & s' & -> & E1 & E2 & E3).
    rewrite (index_template_same_site app s s1) in E1 by done.
    rewrite (cache_after_same_site app s s1) in E3 by done.
    pose proof (same_site_trans s s1 s' Hs E2).
    destruct o; eauto 10. }
  destruct (decide (p ≠ EmptyString ∧ _)) as [[Hp Hex]|Hn].
  - rewrite decide_True by done.
    unfold in_machine at 1, os_path_exists.
    set (s1 := Server (log _ (machine s)) _ _ _).
    rewrite bool_decide_eq_true_2 by done.
    unfold in_machine.
    pose proof (send_from_directory_same_files app (static_folder app) p
                  (machine s1)) as [Hr Hc].
    pose proof (send_from_directory_response app (static_folder app) p
                  (machine s1)) as E1.
    rewrite send_from_directory_response.
    unfold finalize in E1.
    destruct (send_from_directory app (static_folder app) p (machine s1))
      as [[r|e] w']; simpl in Hr, Hc, E1; rewrite <- E1;
      eexists _, _; (split; [reflexivity|]); by repeat split.
  - destruct (decide (p ≠ EmptyString)) as [Hp|Hp].
    + unfold in_machine at 1, os_path_exists.
      set (s1 := Server (log _ (machine s)) _ _ _).
      assert (same_site s s1) as Hs1 by (by repeat split).
      rewrite bool_decide_eq_false_2 by (intros ?; by apply Hn).
      destruct (Hfall s1 Hs1 eq_refl) as (r & s' & -> & ?). eauto.
    + unfold in_machine at 1, ret.
      set (s1 := Server (machine s) _ _ _).
      assert (same_site s s1) as Hs1 by (by repeat split).
      destruct (Hfall s1 Hs1 eq_refl) as (r & s' & -> & ?). eauto.
Qed.


Lemma handle_in_process_same_site app p s :
  same_site s (handle_in_process app p s).2.
Proof.
  by destruct (handle_in_process_run app p s) as (r & s' & -> & ? & _).
Qed.

Lemma run_requests_same_site app qs s : same_site s (run_requests app qs s).
Proof.
  revert s. induction qs as [|q qs IH]; intros s; [apply same_site_refl|].
  simpl. eapply same_site_trans; [|apply IH].
  apply handle_in_process_same_site.
Qed.


(** The first request of a process is [handle]: with nothing loaded yet,
    the response is a function of the files. *)
Lemma first_request_is_handle app p w times debug :
  (∀ source body, render source = Return body → compiles source = true) →
  (handle_in_process app p (boot w times debug)).1 = (handle app p w).1.
Proof.
  intros Hc.
  destruct (handle_in_process_run app p (boot w times debug))
    as (r & s' & -> & _ & Hr).
  cbn [fst boot machine] in *.
  destruct (decide (p ≠ EmptyString ∧ _)) as [[Hp Hex]|Hn].
  - destruct Hr as [-> _]. by rewrite handle_found.
  - destruct Hr as [-> _]. rewrite handle_missing, render_template_response.
    + unfold render_loaded, index_template, index_loaded. simpl.
      destruct (stat (root w) (cwd w) (index_path app)) as [[source|es]|];
        [|done..].
      destruct (compiles source) eqn:Ec; [done|]. simpl.
      destruct (render source) as [body|e] eqn:Er.
      * apply Hc in Er. congruence.
      * by rewrite (handle_exception_render source e).
    + destruct (decide (p = EmptyString)); [by left|right].
      destruct (stat _ _ _) eqn:E; [|done]. exfalso. apply Hn. eauto.
Qed.

End ProcessProps.

(** * The model at work *)

Example normpath_plain : normpath "assets/app.js" = "assets/app.js"%string.
Proof. reflexivity. Qed.

Example normpath_dots : normpath "a/./b//../c/" = "a/c"%string.
Proof. reflexivity. Qed.

Example normpath_escape :
  normpath "../../etc/passwd" = "../../etc/passwd"%string.
Proof. reflexivity. Qed.

Example normpath_inner_escape : normpath "a/../../x" = "../x"%string.
Proof. reflexivity. Qed.

Example normpath_absolute : normpath "/../etc//passwd" = "/etc/passwd"%string.
Proof. reflexivity. Qed.

Example normpath_two_slashes : normpath "//a" = "//a"%string.
Proof. reflexivity. Qed.

Example normpath_self : normpath "a/.." = "."%string.
Proof. reflexivity. Qed.

Example safe_join_plain_path :
  safe_join "/srv/app/client/dist" "assets/app.js"
  = Some "/srv/app/client/dist/assets/app.js"%string.
Proof. reflexivity. Qed.

Example safe_join_escape :
  safe_join "/srv/app/client/dist" "../../etc/passwd" = None.
Proof. reflexivity. Qed.

Example render_plain_keeps :
  render_plain "<html></html>" = "<html></html>"%string.
Proof. reflexivity. Qed.

Example render_plain_trailing_newline :
  render_plain (String "a" (String LF EmptyString)) = "a"%string.
Proof. reflexivity. Qed.

Example render_plain_crlf :
  render_plain (String "a" (String CR (String LF (String "b" EmptyString))))
  = String "a" (String LF (String "b" EmptyString)).
Proof. reflexivity. Qed.

Example render_plain_two_newlines :
  render_plain (String "a" (String LF (String LF EmptyString)))
  = String "a" (String LF EmptyString).
Proof. reflexivity. Qed.

(** Scenarios A, B and C of the specification, on the example deployment:
    the asset, a client-side route and the root. *)
Example scenario_asset :
  example_handle "assets/app.js"
  = Response 200 "text/javascript" "console.log(1)".
Proof. reflexivity. Qed.

Example scenario_client_route :
  example_handle "dashboard" = Response 200 "text/html" "<html></html>".
Proof. reflexivity. Qed.

Example scenario_root :
  example_handle "" = Response 200 "text/html" "<html></html>".
Proof. reflexivity. Qed.

(** A path with dots that stays inside the static folder names the file it
    leads to. *)
Example scenario_inner_dots :
  example_handle "assets/../index.html" = Response 200 "text/html" index_html.
Proof. reflexivity. Qed.

(** The system calls of one request for an asset: the existence check of
    the view, the file test of [send_from_directory], the look at the file
    and the read of [send_file]. *)
Example trace_of_asset_request :
  trace (handle (rt := example_runtime) example_app "assets/app.js"
           example_world).2
  = [EvStat "/srv/app/client/dist/assets/app.js";
     EvStat "/srv/app/client/dist/assets/app.js";
     EvStat "/srv/app/client/dist/assets/app.js";
     EvRead "/srv/app/client/dist/assets/app.js"].
Proof. reflexivity. Qed.

(** The empty path skips the existence check: the loader tests the file,
    reads it and takes its modification time. *)
Example trace_of_root_request :
  trace (handle (rt := example_runtime) example_app "" example_world).2
  = [EvStat "/srv/app/client/dist/index.html";
     EvRead "/srv/app/client/dist/index.html";
     EvStat "/srv/app/client/dist/index.html"].
Proof. reflexivity. Qed.

Example get_is_routed_to_serve :
  full_dispatch_request (rt := example_runtime) example_app GET "/dashboard"
    example_world
  = handle (rt := example_runtime) example_app "dashboard" example_world.
Proof. reflexivity. Qed.

Example head_has_no_body :
  (full_dispatch_request (rt := example_runtime) example_app HEAD "/dashboard"
     example_world).1
  = Response 200 "text/html" "".
Proof. reflexivity. Qed.

(** Leading slashes count as one. *)
Example get_with_two_slashes :
  (full_dispatch_request (rt := example_runtime) example_app GET
     "//assets/app.js" example_world).1
  = Response 200 "text/javascript" "console.log(1)".
Proof. reflexivity. Qed.

(** A request with an empty path is sent to [/]; a POST finds nothing. *)
Example get_on_empty_path :
  full_dispatch_request (rt := example_runtime) example_app GET ""
    example_world
  = (ErrorPage 308, example_world).
Proof. reflexivity. Qed.

Example post_on_empty_path :
  full_dispatch_request (rt := example_runtime) example_app POST ""
    example_world
  = (ErrorPage 404, example_world).
Proof. reflexivity. Qed.

(** The static route that Flask registers under [/dist] comes first and has
    no fallback. *)
Example static_route_has_no_fallback :
  (full_dispatch_request (rt := example_runtime) example_app GET "/dist/missing"
     example_world).1
  = ErrorPage 404.
Proof. reflexivity. Qed.

Example static_route_sends_assets :
  (full_dispatch_request (rt := example_runtime) example_app GET
     "/dist/assets/app.js" example_world).1
  = Response 200 "text/javascript" "console.log(1)".
Proof. reflexivity. Qed.

(** A process with debug on looks at the age of the file: it loads a newer
    [index.html], and misses a change that leaves the modification time as
    it was. *)
Example reload_sees_a_newer_file :
  (example_request "dashboard"
     (with_files restyled_root (λ _, 2) warm_debug_process)).1
  = Response 200 "text/html" "<html>new</html>".
Proof. vm_compute. reflexivity. Qed.

Example reload_misses_a_file_of_the_same_age :
  (example_request "dashboard"
     (with_files restyled_root (λ _, 1) warm_debug_process)).1
  = Response 200 "text/html" "<html></html>".
Proof. vm_compute. reflexivity. Qed.

(** The system calls of a request answered from the cache with debug on:
    the existence check of the view and the look at the age of the
    template. *)
Example trace_of_cached_request :
  trace (machine (example_request "dashboard" warm_debug_process).2)
  = trace (machine warm_debug_process)
    ++ [EvStat "/srv/app/client/dist/dashboard";
        EvStat "/srv/app/client/dist/index.html"].
Proof. vm_compute. reflexivity. Qed.

(** * Counterexamples and witnesses *)

(** C1 as stated fails: [dashboard] names nothing, [index.html] ends with a
    newline, and the body of the response is the file without it. *)
Lemma missing_path_body_is_not_the_file :
  stat example_root ["srv"; "app"]%string "/srv/app/client/dist/dashboard"
  = None
  ∧ stat example_root ["srv"; "app"]%string "/srv/app/client/dist/index.html"
    = Some (File index_html)
  ∧ example_handle "dashboard" = Response 200 "text/html" "<html></html>"
  ∧ index_html ≠ "<html></html>"%string.
Proof. repeat split; try reflexivity. discriminate. Qed.

(** C1, witness: the path [dashboard] on the example deployment. *)
Lemma missing_path_gets_rendered_index_witness :
  status_of
    (handle (rt := example_runtime) example_app "dashboard" example_world).1
  ≠ 404
  ∧ ∀ source body,
      stat example_root ["srv"; "app"]%string (index_path example_app)
      = Some (File source) →
      render (rt := example_runtime) source = Return body →
      (handle (rt := example_runtime) example_app "dashboard" example_world).1
      = Response 200 "text/html" body.
Proof.
  apply (missing_path_gets_rendered_index example_app example_world
           "dashboard").
  right. reflexivity.
Defined.

(** C2 as stated fails: [../dist/index.html] names a file of the static
    folder, by way of the folder above, and the response is 404. *)
Lemma asset_reached_from_above_is_not_found :
  stat example_root ["srv"; "app"]%string
    "/srv/app/client/dist/../dist/index.html"
  = Some (File index_html)
  ∧ inside_root "../dist/index.html" = false
  ∧ example_handle "../dist/index.html" = ErrorPage 404.
Proof. repeat split; reflexivity. Qed.

(** C2, witness: the asset [assets/app.js]. *)
Lemma existing_asset_is_sent_witness :
  example_handle "assets/app.js"
  = Response 200 "text/javascript" "console.log(1)".
Proof.
  apply (existing_asset_is_sent (rt := example_runtime) "/srv/app" None
           example_world "assets/app.js" "console.log(1)"); reflexivity.
Defined.

(** C3 as stated fails: the path of the claim's example, long enough to
    reach [/etc/passwd] from the static folder, is answered with 404; the
    fallback is another response. *)
Lemma traversal_to_existing_file_is_not_found :
  stat example_root ["srv"; "app"]%string
    "/srv/app/client/dist/../../../../etc/passwd"
  = Some (File "root:x:0:0")
  ∧ example_handle "../../../../etc/passwd" = ErrorPage 404
  ∧ example_handle "" = Response 200 "text/html" "<html></html>".
Proof. repeat split; reflexivity. Qed.

(** C3, witness: the same path. *)
Lemma traversal_never_leaves_the_static_folder_witness :
  (example_handle "../../../../etc/passwd" = example_handle ""
   ∨ example_handle "../../../../etc/passwd" = ErrorPage 404
   ∨ ∃ S names content mimetype,
       resolve example_root ["srv"; "app"]%string (static_folder example_app)
       = Some S
       ∧ Forall plain_name names
       ∧ node_at example_root (S ++ names) = Some (File content)
       ∧ example_handle "../../../../etc/passwd"
         = Response 200 mimetype content)
  ∧ ("../../../../etc/passwd"%string ≠ EmptyString →
     inside_root "../../../../etc/passwd" = false →
     example_handle "../../../../etc/passwd"
     = match stat example_root ["srv"; "app"]%string
               (static_folder example_app +:+ "/"
                +:+ "../../../../etc/passwd") with
       | Some _ => ErrorPage 404
       | None => example_handle ""
       end).
Proof.
  apply (traversal_never_leaves_the_static_folder (rt := example_runtime)
           "/srv/app" None example_world "../../../../etc/passwd").
  reflexivity.
Defined.

(** C4 as stated fails: with no [client/dist] at all, the process listens. *)
Lemma startup_without_assets_listens :
  stat unbuilt_root ["srv"; "app"]%string "/srv/app/client/dist" = None
  ∧ stat unbuilt_root ["srv"; "app"]%string "/srv/app/client/dist/index.html"
    = None
  ∧ (main unbuilt_world).1 = Listening example_app "0.0.0.0" 5000.
Proof. repeat split; reflexivity. Qed.

(** C4, witness: the same machine. *)
Lemma startup_does_not_look_at_the_files_witness :
  (main unbuilt_world).1 = Listening example_app "0.0.0.0" 5000
  ∧ trace (main unbuilt_world).2
    = [EvGetenv "SESSION_SECRET"; EvBind "0.0.0.0" 5000]
  ∧ same_files unbuilt_world (main unbuilt_world).2
  ∧ ∀ app p,
      stat unbuilt_root ["srv"; "app"]%string (index_path app) = None →
      p = EmptyString
      ∨ stat unbuilt_root ["srv"; "app"]%string
          (static_folder app +:+ "/" +:+ p) = None →
      (handle (rt := example_runtime) app p (main unbuilt_world).2).1
      = ErrorPage 500.
Proof.
  apply (startup_does_not_look_at_the_files (rt := example_runtime)
           unbuilt_world).
  apply not_elem_of_nil.
Defined.

(** C5 as stated fails: [assets] is a directory, and the response is 404,
    not the fallback. *)
Lemma directory_path_is_not_found :
  stat example_root ["srv"; "app"]%string "/srv/app/client/dist/assets"
  = Some (Dir [("app.js"%string, File "console.log(1)")])
  ∧ example_handle "assets" = ErrorPage 404
  ∧ example_handle "" = Response 200 "text/html" "<html></html>".
Proof. repeat split; reflexivity. Qed.

(** C5, witness: the same directory. *)
Lemma existing_directory_is_not_found_witness :
  example_handle "assets" = ErrorPage 404.
Proof.
  apply (existing_directory_is_not_found (rt := example_runtime) "/srv/app"
           None example_world "assets"
           [("app.js"%string, File "console.log(1)")]);
    [reflexivity|discriminate|reflexivity].
Defined.

(** C6 as stated fails: the empty path gets the rendering, [index.html] the
    bytes, and they differ by the last newline. *)
Lemma empty_path_differs_from_index_path :
  example_handle "" = Response 200 "text/html" "<html></html>"
  ∧ example_handle "index.html" = Response 200 "text/html" index_html
  ∧ example_handle "" ≠ example_handle "index.html".
Proof. repeat split; try reflexivity. discriminate. Qed.

(** C6, witness: the example deployment. *)
Lemma empty_path_renders_what_index_path_sends_witness :
  example_handle ""
  = match render (rt := example_runtime) index_html with
    | Return body => Response 200 "text/html" body
    | Raise _ => ErrorPage 500
    end
  ∧ example_handle "index.html"
    = Response 200
        (default "application/octet-stream"%string
           (example_guess_type "index.html"))
        index_html
  ∧ (example_handle "" = example_handle "index.html"
     ↔ render (rt := example_runtime) index_html = Return index_html
       ∧ default "application/octet-stream"%string
           (example_guess_type "index.html")
         = "text/html"%string).
Proof.
  apply (empty_path_renders_what_index_path_sends (rt := example_runtime)
           "/srv/app" None example_world index_html); reflexivity.
Defined.


(** C10, witness: a POST to [/dashboard]. *)
Lemma other_methods_are_not_allowed_witness :
  full_dispatch_request (rt := example_runtime) example_app POST "/dashboard"
    example_world
  = (ErrorPage 405, example_world).
Proof.
  apply (other_methods_are_not_allowed (rt := example_runtime) example_app
           POST "dashboard" example_world);
    [discriminate|discriminate|discriminate|right; reflexivity].
Defined.

(** * Further properties *)

(** ** More on strings and paths *)

Lemma append_assoc a b c : (a +:+ b) +:+ c = a +:+ (b +:+ c).
Proof. induction a as [|x a IH]; simpl; [done|]. by rewrite IH. Qed.


Lemma strip_prefix_startswith pre s :
  startswith s pre = false → strip_prefix pre s = None.
Proof.
  revert s. induction pre as [|a pre IH]; intros s; simpl; [done|].
  destruct s as [|b s]; [done|].
  destruct (decide (a = b)) as [->|Hab].
  - rewrite bool_decide_eq_true_2 by done. simpl. apply IH.
  - done.
Qed.

Lemma strip_prefix_app pre s : strip_prefix pre (pre +:+ s) = Some s.
Proof.
  induction pre as [|a pre IH]; simpl; [done|]. by rewrite decide_True.
Qed.

Lemma static_url_path_make_app rp secret :
  static_url_path (make_app rp secret) = "/dist"%string.
Proof.
  unfold static_url_path.
  assert (basename (static_folder (make_app rp secret)) = "dist"%string) as ->;
    [|done].
  unfold static_folder, make_app, posixpath_join. simpl.
  destruct (_ || _).
  - change "client/dist"%string with ("client" +:+ "/" +:+ "dist").
    rewrite <- append_assoc. by apply basename_below.
  - change "/client/dist"%string with ("/client" +:+ "/" +:+ "dist").
    rewrite <- append_assoc. by apply basename_below.
Qed.

Lemma url_map_make_app rp secret :
  url_map (make_app rp secret)
  = [ Rule "/dist/" true None [GET; HEAD; OPTIONS] StaticEndpoint;
      Rule "/" false (Some ""%string) [GET; HEAD; OPTIONS] ServeEndpoint;
      Rule "/" true None [GET; HEAD; OPTIONS] ServeEndpoint ].
Proof. unfold url_map. by rewrite static_url_path_make_app. Qed.

Lemma finalize_bind_ret (m : IO response) w : finalize (r <- m ;; ret r) w = finalize m w.
Proof. unfold finalize, bind, ret. by destruct (m w) as [[r|e] w']. Qed.

(** ** Routing, route by route *)

Lemma strip_prefix_cons a pre s :
  strip_prefix (String a pre) (String a s) = strip_prefix pre s.
Proof. simpl. by rewrite decide_True. Qed.

Lemma match_static_rule_miss ms path :
  startswith path "dist/" = false →
  match_rule (Rule "/dist/" true None ms StaticEndpoint) ("/" +:+ path) = None.
Proof.
  intros Hp. unfold match_rule. cbn [rule_has_path rule_literal].
  change ("/" +:+ path) with (String "/" path).
  by rewrite strip_prefix_cons, strip_prefix_startswith.
Qed.

Lemma match_static_rule_hit ms p :
  p ≠ EmptyString → startswith p "/" = false →
  match_rule (Rule "/dist/" true None ms StaticEndpoint) ("/dist/" +:+ p) = Some p.
Proof.
  intros Hp Hs. unfold match_rule. cbn [rule_has_path rule_literal].
  rewrite strip_prefix_app.
  apply startswith_slash_false in Hs as [?|(c & s' & -> & Hc)]; [done|].
  by rewrite decide_False.
Qed.

Lemma match_root_rule ms path :
  match_rule (Rule "/" false (Some ""%string) ms ServeEndpoint) ("/" +:+ path)
  = if decide (path = EmptyString) then Some ""%string else None.
Proof.
  unfold match_rule. cbn [rule_has_path rule_literal rule_defaults].
  change ("/" +:+ path) with (String "/" path).
  destruct path as [|c s].
  - by rewrite !decide_True.
  - by rewrite !decide_False.
Qed.

Lemma match_path_rule ms path :
  path = EmptyString ∨ startswith path "/" = false →
  match_rule (Rule "/" true None ms ServeEndpoint) ("/" +:+ path)
  = if decide (path = EmptyString) then None else Some path.
Proof.
  intros Hp. unfold match_rule. cbn [rule_has_path rule_literal].
  change ("/" +:+ path) with (String "/" path).
  rewrite strip_prefix_cons. cbn [strip_prefix].
  destruct Hp as [->|Hs]; [done|].
  apply startswith_slash_false in Hs as [->|(c & s' & -> & Hc)]; [done|].
  rewrite decide_False by done. by rewrite decide_False.
Qed.

Section Routes.

Context {rt : Runtime}.

(** What [lstrip] leaves does not begin with a slash. *)
Lemma lstrip_slash_spec url :
  lstrip_slash url = EmptyString ∨ startswith (lstrip_slash url) "/" = false.
Proof.
  induction url as [|c url IH]; [by left|]. simpl.
  destruct (decide (c = slash)) as [->|Hc]; [done|]. right. simpl.
  by rewrite bool_decide_eq_false_2 by (intros E; by apply Hc).
Qed.

Lemma path_part_dist p :
  ("/dist/" +:+ p ≠ EmptyString)
  ∧ "/" +:+ lstrip_slash ("/dist/" +:+ p) = "/dist/" +:+ p.
Proof. split; [done|reflexivity]. Qed.

(** X1.  A GET on a URL path that is not empty runs the view on that path
    without all its leading slashes, unless what is left begins with
    [dist/]: [/] runs it on the empty path, [/dashboard] on [dashboard],
    and [//assets/app.js] on [assets/app.js].  Response and state are those
    of the handler. *)
Theorem get_request_runs_the_view rp secret url w :
  url ≠ EmptyString →
  startswith (lstrip_slash url) "dist/" = false →
  full_dispatch_request (make_app rp secret) GET url w
  = handle (make_app rp secret) (lstrip_slash url) w.
Proof.
  intros Hu Hd. unfold full_dispatch_request, dispatch_request, handle.
  rewrite decide_False by done. cbv zeta.
  pose proof (lstrip_slash_spec url) as Hp.
  set (path := lstrip_slash url) in *.
  rewrite url_map_make_app. cbn [omap list_omap].
  rewrite match_static_rule_miss, match_root_rule, match_path_rule by done.
  destruct (decide (path = EmptyString)) as [->|Hne]; simpl;
    apply finalize_bind_ret.
Qed.

Lemma dispatch_static_get rp secret p w :
  p ≠ EmptyString → startswith p "/" = false →
  full_dispatch_request (make_app rp secret) GET ("/dist/" +:+ p) w
  = finalize (send_from_directory (make_app rp secret)
                (static_folder (make_app rp secret)) p) w.
Proof.
  intros Hp Hs. unfold full_dispatch_request, dispatch_request.
  destruct (path_part_dist p) as [Hne Hl].
  rewrite decide_False by exact Hne. rewrite Hl. cbv zeta.
  rewrite url_map_make_app. cbn [omap list_omap].
  rewrite match_static_rule_hit by done.
  destruct (match_rule (Rule "/" false _ _ _) _),
    (match_rule (Rule "/" true _ _ _) _); simpl; apply finalize_bind_ret.
Qed.

End Routes.

Section MoreRoutes.

Context {rt : Runtime}.



(** X3.  Every file of the static folder is also served under [/dist/]: a
    GET for [/dist/] followed by a path that stays inside the static folder
    and names a regular file is answered with 200 and the bytes of the
    file, typed after its name. *)
Theorem static_route_sends_inside_files rp secret p content w :
  isabs rp = true →
  inside_root p = true →
  stat (root w) (cwd w) (static_folder (make_app rp secret) +:+ "/" +:+ p)
  = Some (File content) →
  (full_dispatch_request (make_app rp secret) GET ("/dist/" +:+ p) w).1
  = Response 200
      (default "application/octet-stream"%string (guess_type (basename p)))
      content.
Proof.
  intros Hrp Hin Hs.
  destruct (send_inside_file rp secret w p content Hrp Hin Hs) as [Hp Hsend].
  apply andb_true_iff in Hin as [Ha _]. apply negb_true_iff in Ha.
  by rewrite dispatch_static_get.
Qed.

Lemma find_first_hit app url m h hits :
  omap (λ r, pair r <$> match_rule r url) (url_map app) = h :: hits →
  m ∈ [GET; HEAD; OPTIONS] →
  List.find (λ h, bool_decide (m ∈ rule_methods h.1)) (h :: hits) = Some h.
Proof.
  intros Eh Hm. simpl. rewrite bool_decide_eq_true_2; [done|].
  assert (h ∈ omap (λ r, pair r <$> match_rule r url) (url_map app)) as Hin
    by (rewrite Eh; by left).
  apply list_elem_of_omap in Hin as (r & Hr & Hf).
  destruct (match_rule r url); [|done]. injection Hf as <-. simpl.
  by rewrite (url_map_methods app r).
Qed.

(** On the empty path a rule for [/] takes GET, HEAD and OPTIONS. *)
Lemma empty_path_redirects app m :
  m ∈ [GET; HEAD; OPTIONS] →
  existsb (λ r, bool_decide (is_Some (match_rule r "/"))
                && bool_decide (m ∈ rule_methods r)) (url_map app)
  = true.
Proof.
  intros Hm. apply existsb_exists.
  exists (add_url_rule "/" false (Some ""%string) None ServeEndpoint). split.
  - unfold url_map. right. by left.
  - apply andb_true_iff. split; apply bool_decide_eq_true_2; [by eexists|done].
Qed.

(** X4.  A HEAD request gets the status and the content type of the GET
    request on the same URL path, and an empty body in place of the file or
    of the rendered index; an error page stays as it is; and the state it
    leaves is that of the GET request: the view runs, and so do its system
    calls. *)
Theorem head_is_get_without_body app url r w w' :
  full_dispatch_request app GET url w = (r, w') →
  full_dispatch_request app HEAD url w
  = (match r with
     | Response status mimetype _ => Response status mimetype ""
     | ErrorPage status => ErrorPage status
     end, w').
Proof.
  unfold full_dispatch_request, dispatch_request.
  destruct (decide (url = EmptyString)) as [->|Hu].
  { rewrite !empty_path_redirects by (rewrite !elem_of_cons; auto).
    unfold finalize, raise. by intros [= <- <-]. }
  cbv zeta.
  destruct (omap _ (url_map app)) as [|h hits] eqn:Eh.
  { unfold finalize, raise. by intros [= <- <-]. }
  rewrite (find_first_hit app _ HEAD h hits Eh)
    by (rewrite !elem_of_cons; auto).
  rewrite (find_first_hit app _ GET h hits Eh)
    by (rewrite !elem_of_cons; auto).
  destruct h as [rl arg]. cbv beta iota.
  destruct (decide (HEAD = OPTIONS)); [done|].
  destruct (decide (GET = OPTIONS)); [done|].
  destruct (decide (HEAD = HEAD)); [|done].
  destruct (decide (GET = HEAD)); [done|].
  unfold finalize, bind, ret, without_body.
  destruct (run_view app (rule_endpoint rl) arg w) as [[resp|ex] w''];
    intros [= <- <-]; [done|].
  by destruct ex.
Qed.

(** X5.  An OPTIONS request on a URL path that the routes match is answered
    with 200 and no body, and the state is untouched: the view does not
    run. *)
Theorem options_is_answered_without_the_view app path w :
  path = EmptyString ∨ startswith path "/" = false →
  full_dispatch_request app OPTIONS ("/" +:+ path) w
  = (Response 200 "text/html" "", w).
Proof.
  intros Hp. unfold_dispatch Hp.
  pose proof (url_map_matches app path Hp) as Hne.
  destruct (omap _ (url_map app)) as [|h hits] eqn:Eh; [done|].
  rewrite (find_first_hit app _ OPTIONS h hits Eh)
    by (rewrite !elem_of_cons; auto).
  destruct h as [r arg]. cbv beta iota. by rewrite decide_True.
Qed.

(** ** The handler *)

(** X8.  A request path that continues below a regular file ([index.html/x],
    or an asset followed by a slash) names nothing: it gets the
    fallback. *)
Theorem path_below_a_file_falls_back rp secret q r content w :
  isabs rp = true →
  stat (root w) (cwd w) (static_folder (make_app rp secret) +:+ "/" +:+ q)
  = Some (File content) →
  (handle (make_app rp secret) (q +:+ "/" +:+ r) w).1
  = (handle (make_app rp secret) "" w).1.
Proof.
  intros Hrp Hs.
  destruct (static_folder_make_app rp secret Hrp) as (Hd1 & Hd2 & Hd3).
  rewrite (handle_missing _ ""  w) by (by left).
  apply handle_missing. right.
  set (dir := static_folder (make_app rp secret)) in *.
  replace (dir +:+ "/" +:+ q +:+ "/" +:+ r)
    with ((dir +:+ "/" +:+ q) +:+ "/" +:+ r)
    by (by rewrite !append_assoc).
  unfold stat in *. rewrite resolve_below by (by apply startswith_slash_app).
  destruct (contains_char NUL r); [done|].
  destruct (resolve _ _ (dir +:+ "/" +:+ q)) as [loc|]; [|done].
  pose proof (split_nonempty slash r) as Hne.
  destruct (split slash r) as [|c cs]; [done|]. simpl.
  assert (walk_step (root w) (Some loc) c = None) as ->.
  { unfold walk_step. by rewrite Hs. }
  by rewrite foldl_walk_None.
Qed.

(** X9.  A path that stays inside the static folder and names a regular
    file gets the same response as its normal form (without empty, [.]
    and [..] components). *)
Theorem spellings_of_a_file_get_one_response rp secret p content w :
  isabs rp = true →
  inside_root p = true →
  stat (root w) (cwd w) (static_folder (make_app rp secret) +:+ "/" +:+ p)
  = Some (File content) →
  (handle (make_app rp secret) (normpath p) w).1
  = (handle (make_app rp secret) p w).1.
Proof.
  intros Hrp Hin Hs.
  destruct (static_folder_make_app rp secret Hrp) as (Hd1 & Hd2 & Hd3).
  destruct (inside_root_plain p Hin) as [Ha Hn].
  destruct (stat_file_inside _ _ _ _ _ Hd1 Hs Hn) as (name & Hl & Hne & Hs' & Hl').
  assert (p ≠ EmptyString) as Hp.
  { intros ->. vm_compute in Hne. done. }
  assert (normpath p = join "/" (norm p)) as Enp.
  { rewrite normpath_rel by done. destruct (norm p); [done|done]. }
  assert (split slash (join "/" (norm p)) = norm p) as Esp.
  { apply split_join; [done|].
    eapply Forall_impl; [exact Hn|]. by intros y (_ & _ & _ & ?). }
  destruct (plain_join_safe (norm p)) as (Hj & _ & _); [done|done|].
  assert (inside_root (join "/" (norm p)) = true) as Hin'.
  { unfold inside_root, isabs. rewrite Hj, Esp. simpl.
    apply (plain_stays_inside _ []); [done| |by rewrite normpath_plain_id].
    eapply Forall_impl; [exact Hn|]. by intros y (_ & _ & _ & ?). }
  destruct (send_inside_file rp secret w p content Hrp Hin Hs) as [_ E1].
  destruct (send_inside_file rp secret w _ content Hrp Hin' Hs') as [Hq E2].
  rewrite Enp.
  rewrite !handle_found; [|done|by rewrite Hs|done|by rewrite Hs'].
  rewrite E1, E2. do 3 f_equal. unfold basename. by rewrite Esp, Hl', Hl.
Qed.

(** X10.  When [index.html] is plain text without carriage returns that
    does not end with a newline, a request path that names nothing is
    answered with 200, [text/html] and exactly the bytes of [index.html]. *)
Theorem plain_index_is_returned_unchanged app p source w :
  p = EmptyString
  ∨ stat (root w) (cwd w) (static_folder app +:+ "/" +:+ p) = None →
  stat (root w) (cwd w) (index_path app) = Some (File source) →
  is_plain source = true →
  contains_char CR source = false →
  endswith_char source LF = false →
  (handle app p w).1 = Response 200 "text/html" source.
Proof.
  intros Hp Hs Hplain Hcr Hlf.
  rewrite handle_missing, render_template_response by done.
  by rewrite Hs, render_plain_template.
Qed.

End MoreRoutes.

(** ** Witnesses *)

(** X1, witness: a GET on [//assets/app.js]. *)
Lemma get_request_runs_the_view_witness :
  full_dispatch_request (rt := example_runtime) example_app GET
    "//assets/app.js" example_world
  = handle (rt := example_runtime) example_app "assets/app.js" example_world.
Proof.
  apply (get_request_runs_the_view (rt := example_runtime) "/srv/app" None
           "//assets/app.js" example_world);
    [discriminate|reflexivity].
Defined.


(** X3, witness: [/dist/assets/app.js]. *)
Lemma static_route_sends_inside_files_witness :
  (full_dispatch_request (rt := example_runtime) example_app GET
     "/dist/assets/app.js" example_world).1
  = Response 200 "text/javascript" "console.log(1)".
Proof.
  apply (static_route_sends_inside_files (rt := example_runtime) "/srv/app"
           None "assets/app.js" "console.log(1)" example_world); reflexivity.
Defined.

(** X4, witness: a HEAD on [/assets/app.js]. *)
Lemma head_is_get_without_body_witness :
  full_dispatch_request (rt := example_runtime) example_app HEAD
    "/assets/app.js" example_world
  = (Response 200 "text/javascript" "",
     (handle (rt := example_runtime) example_app "assets/app.js"
        example_world).2).
Proof.
  apply (head_is_get_without_body (rt := example_runtime) example_app
           "/assets/app.js" (Response 200 "text/javascript" "console.log(1)")
           example_world).
  reflexivity.
Defined.

(** X5, witness: an OPTIONS on [/dashboard]. *)
Lemma options_is_answered_without_the_view_witness :
  full_dispatch_request (rt := example_runtime) example_app OPTIONS
    "/dashboard" example_world
  = (Response 200 "text/html" "", example_world).
Proof.
  apply (options_is_answered_without_the_view (rt := example_runtime)
           example_app "dashboard" example_world).
  right. reflexivity.
Defined.

(** X8, witness: a client-side route below [index.html]. *)
Lemma path_below_a_file_falls_back_witness :
  example_handle "index.html/settings" = example_handle "".
Proof.
  apply (path_below_a_file_falls_back (rt := example_runtime) "/srv/app" None
           "index.html" "settings" index_html example_world); reflexivity.
Defined.

(** X9, witness: [assets/./app.js] and [assets/app.js]. *)
Lemma spellings_of_a_file_get_one_response_witness :
  example_handle (normpath "assets/./app.js") = example_handle "assets/./app.js".
Proof.
  apply (spellings_of_a_file_get_one_response (rt := example_runtime)
           "/srv/app" None "assets/./app.js" "console.log(1)" example_world);
    reflexivity.
Defined.

(** X10, witness: the deployment whose [index.html] has no last newline. *)
Lemma plain_index_is_returned_unchanged_witness :
  (handle (rt := example_runtime) example_app "dashboard" tidy_world).1
  = Response 200 "text/html" "<html></html>".
Proof.
  apply (plain_index_is_returned_unchanged (rt := example_runtime) example_app
           "dashboard" "<html></html>" tidy_world);
    [right; reflexivity|reflexivity..].
Defined.
